(** * Hand-misalignment detector: the landmark-to-metrics geometry of
      [src/components/CameraFeed.tsx]

    The source holds two variants of the component.  They share the
    constants and the bend-angle code and differ in how missing fingertips
    are treated:

    - the first variant (lines 1-315, module [Unguarded]) dereferences the
      fingertip landmarks directly in [processFingerPairAngles] and in the
      gap computation of [onResults];
    - the second variant (lines 316-628, module [Guarded]), the one [App]
      mounts, tests every landmark before it is dereferenced and adds the
      side-bend angles.

    Numbers.  A JavaScript [number] is modelled by a real number: the
    arithmetic is exact, there is no rounding, no infinity and no NaN.
    [Math.atan2] and [Math.hypot] are given their mathematical definitions.

    Arrays and objects.  [lm[i]] on an array is [lm !! i]; [None] is the
    JavaScript [undefined].  An object read through string keys is a
    [gmap string R].  Reading a property of [undefined] raises [TypeError];
    this is kept explicit in the [completion] monad.

    The consumers of the hand records are embedded too: the hand groups of
    [HandVisualization3D.tsx], the chart data and the angle list of
    [CorrelationChart.tsx], the window sizes of [SettingsPanel.tsx], and the
    rows of the text that [onResults] draws.  [Object.entries], whose order
    a [gmap] does not keep, and [parseInt] are arguments of the functions
    that call them. *)

From Stdlib Require Import Reals Lra List Ascii.
From stdpp Require Import gmap strings list pretty.
Import ListNotations.

#[local] Open Scope R_scope.
#[local] Open Scope string_scope.

(** ** Numbers *)

(** [Math.atan2(dy, dx)]: the polar angle of the point [(dx, dy)], in
    [(-PI, PI]], and [0] at the origin. *)
Definition atan2 (dy dx : R) : R :=
  if Rlt_dec 0 dx then atan (dy / dx)
  else if Rlt_dec dx 0 then
    if Rle_dec 0 dy then atan (dy / dx) + PI else atan (dy / dx) - PI
  else if Rlt_dec 0 dy then PI / 2
  else if Rlt_dec dy 0 then - (PI / 2)
  else 0.

(** [Math.hypot(dx, dy)]. *)
Definition hypot (dx dy : R) : R := sqrt (dx * dx + dy * dy).

(** ** Data model ([src/types/HandData.ts]) *)

Record HandLandmark : Type := mkLandmark { x : R; y : R; z : R }.

(** ** Constants *)

Definition FINGER_JOINTS : list (string * (nat * nat * nat)) :=
  [ ("Thumb",  (1,  2,  4))%nat;
    ("Index",  (5,  6,  8))%nat;
    ("Middle", (9,  10, 12))%nat;
    ("Ring",   (13, 14, 16))%nat;
    ("Pinky",  (17, 18, 20))%nat ].

Definition FINGER_TIPS : list nat := [4; 8; 12; 16; 20]%nat.

(** ** The bend angle *)

Definition calculateAngle (a b c : HandLandmark) : R :=
  let rad :=
    atan2 (y c - y b) (x c - x b) - atan2 (y a - y b) (x a - x b) in
  let deg := Rabs (rad * (180 / PI)) in
  if Rlt_dec 180 deg then 360 - deg else deg.

(** ** Exceptions and array access *)

Inductive JsError : Type := TypeError.

(** The outcome of running a piece of code: a value, or a raised error. *)
Inductive completion (A : Type) : Type :=
  | Normal (v : A)
  | Throw (e : JsError).
Arguments Normal {A} v.
Arguments Throw {A} e.

#[global] Instance completion_ret : MRet completion := @Normal.
#[global] Instance completion_bind : MBind completion :=
  λ A B k m, match m with Normal v => k v | Throw e => Throw e end.

(** Reading a property of [v], or passing [v] where its properties are
    read: [TypeError] when [v] is [undefined]. *)
Definition deref {A : Type} (v : option A) : completion A :=
  match v with Some o => Normal o | None => Throw TypeError end.

(** [v] used as a condition.  The values tested in this program are objects
    or [undefined]; every object is truthy. *)
Definition truthy {A : Type} (v : option A) : bool :=
  match v with Some _ => true | None => false end.

(** [arr[i]] where the index is itself the result of an array read:
    [arr[undefined]] is [undefined]. *)
Definition at_index {A : Type} (arr : list A) (i : option nat) : option A :=
  match i with Some k => arr !! k | None => None end.

(** An index inside a template string. *)
Definition show_index (i : option nat) : string :=
  match i with Some k => pretty k | None => "undefined" end.

(** [arr.forEach((elem, i) => body)], and the counted [for] loop as the same
    iteration over its range of indices: the body updates the variables it
    captures ([state]); a raise leaves the loop. *)
Fixpoint forEach_from {A St : Type} (body : St → A → nat → completion St)
    (i : nat) (arr : list A) (state : St) : completion St :=
  match arr with
  | [] => Normal state
  | elem :: rest =>
      state' ← body state elem i; forEach_from body (S i) rest state'
  end.

Definition forEach {A St : Type} (body : St → A → nat → completion St)
    (arr : list A) (state : St) : completion St :=
  forEach_from body 0 arr state.

(** ** Code shared by both variants *)

(** [Object.keys(FINGER_JOINTS).forEach((finger) => ...)] visits the keys in
    the order of the literal; [FINGER_JOINTS[finger]] is the triple listed
    with that key, so the loop runs over the entries of [FINGER_JOINTS]. *)
Definition processAngles (lm : list HandLandmark) : completion (gmap string R) :=
  let angles : gmap string R :=
    {[ "Thumb" := 0; "Index" := 0; "Middle" := 0; "Ring" := 0; "Pinky" := 0 ]} in
  forEach (λ angles '(finger, (a, b, c)) _,
      if truthy (lm !! a) && truthy (lm !! b) && truthy (lm !! c) then
        pa ← deref (lm !! a); pb ← deref (lm !! b); pc ← deref (lm !! c);
        mret (<[finger := calculateAngle pa pb pc]> angles)
      else mret angles)
    FINGER_JOINTS angles.

Record HandData : Type := mkHandData {
  landmarks : list HandLandmark;
  fingerAngles : gmap string R;
  fingerPairAngles : option (gmap string R);
  handedness : string;
  gap : R;
  timestamp : Z
}.

(** The detector's output (the [Results] of [@mediapipe/hands]), as far as
    [onResults] reads it. *)
Module NormalizedLandmark.
Record t : Type := mk { x : R; y : R; z : option R }.
End NormalizedLandmark.

Record Handedness : Type := mkHandedness { label : string }.

Record Results : Type := mkResults {
  multiHandLandmarks : option (list (list NormalizedLandmark.t));
  multiHandedness : option (list Handedness)
}.

(** [landmarks.map((l) => ({ x: l.x, y: l.y, z: l.z ?? 0 }))] *)
Definition toHandLandmarks (raw : list NormalizedLandmark.t) : list HandLandmark :=
  map (λ l, {| x := NormalizedLandmark.x l;
               y := NormalizedLandmark.y l;
               z := match NormalizedLandmark.z l with Some d => d | None => 0 end |})
      raw.

(** ** The unguarded variant *)

Module Unguarded.

Definition processFingerPairAngles (lm : list HandLandmark)
  : completion (gmap string R) :=
  forEach (λ (angles : gmap string R) (i : nat) _,
      let tip1 := at_index lm (FINGER_TIPS !! i) in
      let tip2 := at_index lm (FINGER_TIPS !! (i + 1)%nat) in
      t2 ← deref tip2; t1 ← deref tip1;
      let dx := x t2 - x t1 in
      let dy := y t2 - y t1 in
      let angle := atan2 dy dx * 180 / PI in
      mret (<[show_index (FINGER_TIPS !! i) +:+ "_"
                +:+ show_index (FINGER_TIPS !! (i + 1)%nat) := Rabs angle]> angles))
    (seq 0 (length FINGER_TIPS - 1)) ∅.

(** The callback given to [results.multiHandLandmarks.forEach].  The
    drawing on the canvas that follows [hands.push(hand)] does not touch
    [hands] and is left out. *)
Definition onHand (Date_now : nat → Z) (handednesses : list Handedness)
    (hands : list HandData) (raw : list NormalizedLandmark.t) (i : nat)
  : completion (list HandData) :=
  h ← deref (handednesses !! i);
  let handedness := label h in
  let lm := toHandLandmarks raw in
  fingerAngles ← processAngles lm;
  fingerPairAngles ← processFingerPairAngles lm;
  let thumbTip := lm !! 4%nat in
  let indexTip := lm !! 8%nat in
  it ← deref indexTip; tt ← deref thumbTip;
  let gap := hypot (x it - x tt) (y it - y tt) in
  let hand :=
    {| landmarks := lm;
       fingerAngles := fingerAngles;
       fingerPairAngles := Some fingerPairAngles;
       handedness := handedness;
       gap := gap;
       timestamp := Date_now i |} in
  mret (hands ++ [hand])%list.

(** [ready] is false when the canvas, its context or the video element is
    absent: the function then returns before anything is emitted.  The
    result is the argument of [onHandData], when it is called. *)
Definition onResults (ready : bool) (Date_now : nat → Z) (results : Results)
  : completion (option (list HandData)) :=
  if negb ready then mret None
  else
    hands ←
      match multiHandLandmarks results, multiHandedness results with
      | Some hls, Some hds => forEach (onHand Date_now hds) hls []
      | _, _ => mret []
      end;
    mret (Some hands).

End Unguarded.

(** ** The guarded variant *)

Module Guarded.

Definition calculateSideBend (a b c : HandLandmark) : R :=
  let rad :=
    atan2 (x c - x b) (z c - z b) - atan2 (x a - x b) (z a - z b) in
  let deg := Rabs (rad * (180 / PI)) in
  if Rlt_dec 180 deg then 360 - deg else deg.

Definition processSideAngles (lm : list HandLandmark)
  : completion (gmap string R) :=
  let angles : gmap string R :=
    {[ "Thumb" := 0; "Index" := 0; "Middle" := 0; "Ring" := 0; "Pinky" := 0 ]} in
  forEach (λ angles '(finger, (a, b, c)) _,
      if truthy (lm !! a) && truthy (lm !! b) && truthy (lm !! c) then
        pa ← deref (lm !! a); pb ← deref (lm !! b); pc ← deref (lm !! c);
        mret (<[finger := calculateSideBend pa pb pc]> angles)
      else mret angles)
    FINGER_JOINTS angles.

Definition processFingerPairAngles (lm : list HandLandmark)
  : completion (gmap string R) :=
  forEach (λ (angles : gmap string R) (i : nat) _,
      let tip1 := at_index lm (FINGER_TIPS !! i) in
      let tip2 := at_index lm (FINGER_TIPS !! (i + 1)%nat) in
      if truthy tip1 && truthy tip2 then
        t2 ← deref tip2; t1 ← deref tip1;
        let dx := x t2 - x t1 in
        let dy := y t2 - y t1 in
        let angle := atan2 dy dx * 180 / PI in
        mret (<[show_index (FINGER_TIPS !! i) +:+ "_"
                  +:+ show_index (FINGER_TIPS !! (i + 1)%nat) := Rabs angle]> angles)
      else mret angles)
    (seq 0 (length FINGER_TIPS - 1)) ∅.

(** The callback given to [results.multiHandLandmarks.forEach].
    [sideBendAngles] is computed and only drawn; the drawing is left out. *)
Definition onHand (Date_now : nat → Z) (handednesses : list Handedness)
    (hands : list HandData) (raw : list NormalizedLandmark.t) (i : nat)
  : completion (list HandData) :=
  h ← deref (handednesses !! i);
  let handedness := label h in
  let lm := toHandLandmarks raw in
  fingerAngles ← processAngles lm;
  fingerPairAngles ← processFingerPairAngles lm;
  sideBendAngles ← processSideAngles lm;
  let thumbTip := lm !! 4%nat in
  let indexTip := lm !! 8%nat in
  gap ←
    (if truthy thumbTip && truthy indexTip then
       it ← deref indexTip; tt ← deref thumbTip;
       mret (hypot (x it - x tt) (y it - y tt))
     else mret 0);
  let hand :=
    {| landmarks := lm;
       fingerAngles := fingerAngles;
       fingerPairAngles := Some fingerPairAngles;
       handedness := handedness;
       gap := gap;
       timestamp := Date_now i |} in
  mret (hands ++ [hand])%list.

Definition onResults (ready : bool) (Date_now : nat → Z) (results : Results)
  : completion (option (list HandData)) :=
  if negb ready then mret None
  else
    hands ←
      match multiHandLandmarks results, multiHandedness results with
      | Some hls, Some hds => forEach (onHand Date_now hds) hls []
      | _, _ => mret []
      end;
    mret (Some hands).

End Guarded.

(** ** Vocabulary of the statements *)

(** The names of the five fingers, the keys of a [FingerAngles] object. *)
Definition fingerNames : gset string :=
  {[ "Thumb"; "Index"; "Middle"; "Ring"; "Pinky" ]}.

(** The four keys a [fingerPairAngles] object can hold. *)
Definition pairKeys : gset string := {[ "4_8"; "8_12"; "12_16"; "16_20" ]}.

(** The consecutive fingertip pairs, with their keys. *)
Definition tipPairs : list (string * (nat * nat)) :=
  [ ("4_8", (4, 8))%nat; ("8_12", (8, 12))%nat;
    ("12_16", (12, 16))%nat; ("16_20", (16, 20))%nat ].

(** The angle of one joint triple, when its three landmarks are present. *)
Definition jointAngle (calc : HandLandmark → HandLandmark → HandLandmark → R)
    (lm : list HandLandmark) (a b c : nat) : option R :=
  match lm !! a, lm !! b, lm !! c with
  | Some pa, Some pb, Some pc => Some (calc pa pb pc)
  | _, _, _ => None
  end.

(** The direction angle of one fingertip pair, when both tips are present. *)
Definition pairAngle (lm : list HandLandmark) (i j : nat) : option R :=
  match lm !! i, lm !! j with
  | Some tip1, Some tip2 =>
      Some (Rabs (atan2 (y tip2 - y tip1) (x tip2 - x tip1) * 180 / PI))
  | _, _ => None
  end.

(** The thumb-index distance, [0] when a tip is absent. *)
Definition tipGap (lm : list HandLandmark) : R :=
  match lm !! 4%nat, lm !! 8%nat with
  | Some thumbTip, Some indexTip =>
      sqrt ((x indexTip - x thumbTip) * (x indexTip - x thumbTip)
            + (y indexTip - y thumbTip) * (y indexTip - y thumbTip))
  | _, _ => 0
  end.

(** An assignment that happens only when there is a value to assign. *)
Definition assignIf (key : string) (v : option R) (obj : gmap string R)
  : gmap string R :=
  match v with Some r => <[key := r]> obj | None => obj end.

(** The object built by the loop over [FINGER_JOINTS], for a given angle
    function. *)
Definition fingerMap (calc : HandLandmark → HandLandmark → HandLandmark → R)
    (lm : list HandLandmark) : gmap string R :=
  fold_left
    (λ obj '(finger, (a, b, c)), assignIf finger (jointAngle calc lm a b c) obj)
    FINGER_JOINTS
    {[ "Thumb" := 0; "Index" := 0; "Middle" := 0; "Ring" := 0; "Pinky" := 0 ]}.

(** The object built by the loop over [FINGER_TIPS] when absent tips are
    skipped. *)
Definition pairMap (lm : list HandLandmark) : gmap string R :=
  fold_left (λ obj '(key, (i, j)), assignIf key (pairAngle lm i j) obj)
    tipPairs ∅.

(** Side bend as the specification words it: the bend-angle formula on the
    points seen in the (z, x) plane, that is with [(x, y)] replaced by
    [(z, x)]. *)
Definition inZXPlane (p : HandLandmark) : HandLandmark :=
  {| x := z p; y := x p; z := y p |}.

Definition sideBend_spec (a b c : HandLandmark) : R :=
  calculateAngle (inZXPlane a) (inZXPlane b) (inZXPlane c).

(** The record [onResults] pushes for one hand when nothing raises. *)
Definition handRecord (Date_now : nat → Z) (h : Handedness)
    (raw : list NormalizedLandmark.t) (i : nat) : HandData :=
  let lm := toHandLandmarks raw in
  {| landmarks := lm;
     fingerAngles := fingerMap calculateAngle lm;
     fingerPairAngles := Some (pairMap lm);
     handedness := label h;
     gap := tipGap lm;
     timestamp := Date_now i |}.

(** ** Sample inputs *)

(** A complete hand: every landmark at (1, 1, 1), except the index finger,
    whose base is (1, 1, 0), whose middle joint is (0, 1, 0) and whose tip
    (landmark 8) is the zero vector. *)
Definition zeroTipHand : list HandLandmark :=
  let p := mkLandmark 1 1 1 in
  [ p; p; p; p; p;
    mkLandmark 1 1 0; mkLandmark 0 1 0; p; mkLandmark 0 0 0;
    p; p; p; p; p; p; p; p; p; p; p; p ].

(** Nine landmarks that agree with [zeroTipHand] at 5, 6 and 8 only. *)
Definition otherHand : list HandLandmark :=
  let q := mkLandmark 7 7 7 in
  [ q; q; q; q; q; mkLandmark 1 1 0; mkLandmark 0 1 0; q; mkLandmark 0 0 0 ].

(** Detector output: hands of 21, 20, 5 and 22 points, and frames made of
    them. *)
Definition rawPoint : NormalizedLandmark.t := NormalizedLandmark.mk 1 1 None.

Definition fullRawHand : list NormalizedLandmark.t := replicate 21 rawPoint.
Definition shortRawHand : list NormalizedLandmark.t := replicate 20 rawPoint.
Definition thumbOnlyRawHand : list NormalizedLandmark.t := replicate 5 rawPoint.

Definition clock0 : nat → Z := λ _, 0%Z.


Definition twoHandFrame : Results :=
  mkResults (Some [fullRawHand; shortRawHand])
            (Some [mkHandedness "Right"; mkHandedness "Left"]).

Definition thumbOnlyFrame : Results :=
  mkResults (Some [thumbOnlyRawHand]) (Some [mkHandedness "Right"]).

(** ** [HandVisualization3D.tsx]: the hand groups of the 3D scene *)

Module Vector3.
Record t : Type := mk { x : R; y : R; z : R }.
End Vector3.

(** The objects added to a hand's group: the sphere mesh of a landmark, placed
    at [position], and the line of a connection through [points].  [color] is
    the color of the object's material. *)
Inductive Object3D : Type :=
  | Mesh (color : Z) (position : Vector3.t)
  | Line (color : Z) (points : list Vector3.t).

Module Visualization.

Definition HAND_CONNECTIONS : list (nat * nat) :=
  [ (0, 1); (1, 2); (2, 3); (3, 4);
    (0, 5); (5, 6); (6, 7); (7, 8);
    (5, 9); (9, 10); (10, 11); (11, 12);
    (9, 13); (13, 14); (14, 15); (15, 16);
    (13, 17); (17, 18); (18, 19); (19, 20);
    (0, 17) ]%nat.

(** The conversion from normalized coordinates to the scene, written out in
    the source at each of its three uses:
    [((l.x - 0.5) * 2, -(l.y - 0.5) * 2, l.z * 2)]. *)
Definition toScene (landmark : HandLandmark) : Vector3.t :=
  Vector3.mk ((x landmark - 1 / 2) * 2) (- (y landmark - 1 / 2) * 2)
             (z landmark * 2).

(** The body of [handData.forEach((hand, handIndex) => ...)], up to the group
    it builds: [handGroup.add] appends to the group's children. *)
Definition handGroup (hand : HandData) (handIndex : nat)
  : completion (list Object3D) :=
  let color := if decide (handIndex = 0%nat) then 0x3b82f6%Z else 0x10b981%Z in
  handGroup ←
    forEach (λ (handGroup : list Object3D) landmark _,
        mret (handGroup ++ [Mesh color (toScene landmark)])%list)
      (landmarks hand) [];
  forEach (λ (handGroup : list Object3D) '(start, finish) _,
      if truthy (landmarks hand !! start) && truthy (landmarks hand !! finish) then
        s ← deref (landmarks hand !! start);
        e ← deref (landmarks hand !! finish);
        let points := [toScene s; toScene e] in
        mret (handGroup ++ [Line color points])%list
      else mret handGroup)
    HAND_CONNECTIONS handGroup.

(** The effect run when [handData] changes.  [sceneReady] tells whether
    [sceneRef.current] is set; the state is [handMeshesRef.current], the
    groups currently in the scene, and the result is its new value. *)
Definition handsEffect (sceneReady : bool) (handMeshes : list (list Object3D))
    (handData : option (list HandData)) : completion (list (list Object3D)) :=
  if negb sceneReady then mret handMeshes
  else
    let handMeshes : list (list Object3D) := [] in
    match handData with
    | None => mret handMeshes
    | Some hands =>
        if decide (length hands = 0%nat) then mret handMeshes
        else
          forEach (λ (handMeshes : list (list Object3D)) hand handIndex,
              handGroup ← handGroup hand handIndex;
              mret (handMeshes ++ [handGroup])%list)
            hands handMeshes
    end.

End Visualization.

(** ** [CorrelationChart.tsx]: the chart data and the angle list *)

Module Dataset.
Record t : Type := mk {
  label : string;
  data : list R;
  borderColor : string;
  backgroundColor : string;
  borderWidth : R;
  pointRadius : R;
  pointHoverRadius : R;
  tension : R
}.
End Dataset.

Module MatrixItem.
Record t : Type := mk { label : string; angle : R; normalized : R }.
End MatrixItem.

Record ChartData : Type := mkChartData {
  labels : list string;
  datasets : list Dataset.t
}.

(** [s.replace(pattern, replacement)] for a pattern of one character: the
    first occurrence is replaced, the rest of the string is kept. *)
Fixpoint String_replace (pattern : Ascii.ascii) (replacement s : string) : string :=
  match s with
  | EmptyString => EmptyString
  | String ch rest =>
      if decide (ch = pattern) then replacement +:+ rest
      else String ch (String_replace pattern replacement rest)
  end.

Module Chart.

(** [Object_entries] stands for [Object.entries]: the own properties of an
    object, each once, in the order JavaScript enumerates them.
    [Object.keys] and [Object.values] list the same properties in the same
    order. *)
Definition chartData (Object_entries : gmap string R → list (string * R))
    (handData : option HandData) (handIndex : nat) : ChartData :=
  match handData with
  | None => {| labels := []; datasets := [] |}
  | Some handData =>
      let fingerNames := map fst (Object_entries (fingerAngles handData)) in
      let fingerValues := map snd (Object_entries (fingerAngles handData)) in
      let pairNames :=
        match fingerPairAngles handData with
        | Some pairs => map fst (Object_entries pairs)
        | None => []
        end in
      let pairValues :=
        match fingerPairAngles handData with
        | Some pairs => map snd (Object_entries pairs)
        | None => []
        end in
      {| labels := (fingerNames ++ pairNames)%list;
         datasets :=
           [ {| Dataset.label := "Angles (Bend + Spread)";
                Dataset.data := (fingerValues ++ pairValues)%list;
                Dataset.borderColor :=
                  if decide (handIndex = 0%nat) then "#3b82f6" else "#10b981";
                Dataset.backgroundColor :=
                  if decide (handIndex = 0%nat) then "rgba(59, 130, 246, 0.1)"
                  else "rgba(16, 185, 129, 0.1)";
                Dataset.borderWidth := 2;
                Dataset.pointRadius := 6;
                Dataset.pointHoverRadius := 8;
                Dataset.tension := 4 / 10 |} ] |}
  end.

Definition correlationMatrix (Object_entries : gmap string R → list (string * R))
    (handData : option HandData) : option (list MatrixItem.t) :=
  match handData with
  | None => None
  | Some handData =>
      let fingers :=
        map (λ '(key, angle),
               {| MatrixItem.label := key;
                  MatrixItem.angle := angle;
                  MatrixItem.normalized := angle / 180 |})
            (Object_entries (fingerAngles handData)) in
      let pairs :=
        match fingerPairAngles handData with
        | Some pairAngles =>
            map (λ '(key, angle),
                   {| MatrixItem.label := String_replace "_"%char "–" key;
                      MatrixItem.angle := angle;
                      MatrixItem.normalized := angle / 180 |})
                (Object_entries pairAngles)
        | None => []
        end in
      Some (fingers ++ pairs)%list
  end.

(** The hue of an item's bar: [(1 - item.normalized) * 120]. *)
Definition hue (item : MatrixItem.t) : R := (1 - MatrixItem.normalized item) * 120.

End Chart.

(** ** [SettingsPanel.tsx]: the window sizes the panel asks for *)

Module WindowSize.
Record t : Type := mk { width : Z; height : Z }.
End WindowSize.

Module Preset.
Record t : Type := mk { name : string; width : Z; height : Z }.
End Preset.

(** What a click on the panel does: it calls [onWindowSizeChange], or it
    shows an alert. *)
Inductive PanelEffect : Type :=
  | onWindowSizeChange (size : WindowSize.t)
  | alert (message : string).

Module Settings.

Definition presetSizes : list Preset.t :=
  [ Preset.mk "Small" 800 600;
    Preset.mk "Medium" 1024 768;
    Preset.mk "Large" 1200 800;
    Preset.mk "XL" 1440 900 ].

(** The click handler of a preset's button. *)
Definition presetClick (preset : Preset.t) : PanelEffect :=
  onWindowSizeChange
    {| WindowSize.width := Preset.width preset;
       WindowSize.height := Preset.height preset |}.

(** [parseInt] is JavaScript's; its result is an integer, or [None] for NaN.
    A comparison with NaN is false, so the test fails when either field does
    not parse. *)
Definition handleCustomSizeApply (parseInt : string → option Z)
    (customWidth customHeight : string) : PanelEffect :=
  let width := parseInt customWidth in
  let height := parseInt customHeight in
  match width, height with
  | Some width, Some height =>
      if (600 <=? width)%Z && (400 <=? height)%Z
         && (width <=? 2560)%Z && (height <=? 1440)%Z
      then onWindowSizeChange
             {| WindowSize.width := width; WindowSize.height := height |}
      else alert "Please enter valid dimensions (600-2560px width, 400-1440px height)"
  | _, _ =>
      alert "Please enter valid dimensions (600-2560px width, 400-1440px height)"
  end.

End Settings.

(** ** The text [onResults] draws over the video *)

(** The content of a line of text, before it is formatted: the gap line
    [`${handedness} Thumb-Index Gap: ${(gap * 100).toFixed(1)} px`], the line
    naming the displayed angles, and a finger's line
    [`${finger}: ${Math.round(angle)}°`]. *)
Inductive OverlayText : Type :=
  | GapText (handedness : string) (gap : R)
  | ModeText (showArtisticAngles : bool)
  | AngleText (finger : string) (angle : R).

(** One call [ctx.fillText(text, x, y)]. *)
Record FillText : Type := mkFillText {
  text : OverlayText;
  text_x : Z;
  text_y : Z
}.

Module Overlay.

(** The unguarded variant, lines 133-142: the text of hand [i] (the index
    is not used). *)
Definition unguarded (Object_entries : gmap string R → list (string * R))
    (handedness : string) (gap : R) (fingerAngles : gmap string R) (i : nat)
  : list FillText :=
  let y := 20%Z in
  let calls := [mkFillText (GapText handedness gap) 10 y] in
  snd (fold_left
         (λ '(y, calls) '(finger, angle),
            let y := (y + 18)%Z in
            (y, calls ++ [mkFillText (AngleText finger angle) 10 y])%list)
         (Object_entries fingerAngles) (y, calls)).

(** The guarded variant, lines 454-464. *)
Definition guarded (Object_entries : gmap string R → list (string * R))
    (showArtisticAngles : bool) (handedness : string) (gap : R)
    (fingerAngles sideBendAngles : gmap string R) (i : nat) : list FillText :=
  let y := (20 + Z.of_nat i * 150)%Z in
  let calls := [mkFillText (GapText handedness gap) 10 y] in
  let displayedAngles :=
    if showArtisticAngles then sideBendAngles else fingerAngles in
  let y := (y + 18)%Z in
  let calls := (calls ++ [mkFillText (ModeText showArtisticAngles) 10 y])%list in
  snd (fold_left
         (λ '(y, calls) '(finger, angle),
            let y := (y + 18)%Z in
            (y, calls ++ [mkFillText (AngleText finger angle) 10 y])%list)
         (Object_entries displayedAngles) (y, calls)).

End Overlay.

(** ** Vocabulary for the other components *)

(** The color of the hand at [handIndex] in the 3D scene. *)
Definition sceneColor (handIndex : nat) : Z :=
  if decide (handIndex = 0%nat) then 0x3b82f6%Z else 0x10b981%Z.

(** The line of one connection, when both of its landmarks are present. *)
Definition connectionLine (color : Z) (lm : list HandLandmark)
    (connection : nat * nat) : list Object3D :=
  match lm !! connection.1, lm !! connection.2 with
  | Some s, Some e =>
      [Line color [Visualization.toScene s; Visualization.toScene e]]
  | _, _ => []
  end.

(** The children of a hand's group: its landmark meshes, then its lines. *)
Definition sceneGroup (hand : HandData) (handIndex : nat) : list Object3D :=
  (map (λ landmark, Mesh (sceneColor handIndex) (Visualization.toScene landmark))
       (landmarks hand)
   ++ concat (map (connectionLine (sceneColor handIndex) (landmarks hand))
                  Visualization.HAND_CONNECTIONS))%list.

(** The rows of text below a first row [y], one every 18 pixels. *)
Definition rowsBelow (y : Z) (n : nat) : list Z :=
  map (λ k : nat, (y + 18 * (Z.of_nat k + 1))%Z) (seq 0 n).

(** [Object.entries] of every object lists its properties, each once. *)
Definition enumerates (Object_entries : gmap string R → list (string * R)) : Prop :=
  ∀ obj, Object_entries obj ≡ₚ map_to_list obj.

(** ** Facts about numbers *)

Lemma atan2_bound (dy dx : R) : - PI < atan2 dy dx <= PI.
Proof.
  pose proof PI_RGT_0 as Hpi.
  pose proof (atan_bound (dy / dx)) as [Hlo Hhi].
  unfold atan2.
  destruct (Rlt_dec 0 dx) as [Hpos | Hnpos]; [lra |].
  destruct (Rlt_dec dx 0) as [Hneg | Hnneg].
  - destruct (Rle_dec 0 dy) as [Hy | Hy].
    + split; [lra |].
      assert (Hq : dy / dx <= 0).
      { unfold Rdiv. replace 0 with (dy * 0) by ring.
        apply Rmult_le_compat_l; [exact Hy |].
        left. now apply Rinv_lt_0_compat. }
      destruct Hq as [Hq | Hq].
      * pose proof (atan_increasing _ _ Hq) as Hinc. rewrite atan_0 in Hinc. lra.
      * rewrite Hq, atan_0. lra.
    + split; [| lra].
      assert (Hq : 0 < dy / dx).
      { unfold Rdiv. replace 0 with (- dy * 0) by ring.
        replace (dy * / dx) with (- dy * - / dx) by ring.
        apply Rmult_lt_compat_l; [lra |].
        pose proof (Rinv_lt_0_compat _ Hneg). lra. }
      pose proof (atan_increasing _ _ Hq) as Hinc. rewrite atan_0 in Hinc. lra.
  - destruct (Rlt_dec 0 dy); [lra |].
    destruct (Rlt_dec dy 0); lra.
Qed.

Lemma atan2_negative_y_axis (dy dx : R) :
  dx = 0 → dy < 0 → atan2 dy dx = - (PI / 2).
Proof.
  intros -> Hdy. unfold atan2.
  destruct (Rlt_dec 0 0) as [H | _]; [lra |].
  destruct (Rlt_dec 0 dy) as [H | _]; [lra |].
  destruct (Rlt_dec dy 0) as [_ | H]; [reflexivity | lra].
Qed.

Lemma atan2_positive_x_axis (dy dx : R) :
  dy = 0 → 0 < dx → atan2 dy dx = 0.
Proof.
  intros -> Hdx. unfold atan2.
  destruct (Rlt_dec 0 dx) as [_ | H]; [| lra].
  unfold Rdiv. rewrite Rmult_0_l. apply atan_0.
Qed.

Lemma atan2_origin : atan2 0 0 = 0.
Proof.
  unfold atan2.
  destruct (Rlt_dec 0 0) as [H | _]; [lra |].
  destruct (Rlt_dec 0 0) as [H | _]; [lra | reflexivity].
Qed.

Lemma degrees_bound (rad : R) :
  - (2 * PI) < rad < 2 * PI -> 0 <= Rabs (rad * (180 / PI)) < 360.
Proof.
  intros [Hlo Hhi]. pose proof PI_RGT_0 as Hpi.
  assert (Hk : 0 < 180 / PI) by (apply Rdiv_lt_0_compat; lra).
  split; [apply Rabs_pos |].
  rewrite Rabs_mult, (Rabs_pos_eq (180 / PI)) by lra.
  replace 360 with (2 * PI * (180 / PI)) by (field; lra).
  apply Rmult_lt_compat_r; [exact Hk |].
  apply Rabs_def1; lra.
Qed.

(** The reflected value of [calculateAngle], whatever its points are. *)
Lemma calculateAngle_range (a b c : HandLandmark) :
  0 <= calculateAngle a b c <= 180.
Proof.
  unfold calculateAngle.
  set (rad := _ - _).
  assert (Hrad : - (2 * PI) < rad < 2 * PI).
  { subst rad.
    pose proof (atan2_bound (y c - y b) (x c - x b)).
    pose proof (atan2_bound (y a - y b) (x a - x b)). lra. }
  pose proof (degrees_bound rad Hrad) as [H0 H360].
  destruct (Rlt_dec 180 _); lra.
Qed.

(** The reflection [deg > 180 ? 360 - deg : deg] read as a minimum. *)
Lemma reflect_min (deg : R) :
  (if Rlt_dec 180 deg then 360 - deg else deg) = Rmin deg (360 - deg).
Proof.
  destruct (Rlt_dec 180 deg) as [H | H].
  - rewrite Rmin_right; lra.
  - rewrite Rmin_left; lra.
Qed.

(** ** Objects assigned under a guard *)

Lemma lookup_assignIf_eq key v (obj : gmap string R) :
  assignIf key v obj !! key
  = match v with Some r => Some r | None => obj !! key end.
Proof. destruct v as [r |]; [apply lookup_insert_eq | done]. Qed.

Lemma lookup_assignIf_ne key v (obj : gmap string R) k :
  key ≠ k → assignIf key v obj !! k = obj !! k.
Proof. intros Hne. destruct v as [r |]; [by apply lookup_insert_ne | done]. Qed.

Lemma dom_assignIf_keep key v (obj : gmap string R) (keys : gset string) :
  key ∈ keys → dom obj = keys → dom (assignIf key v obj) = keys.
Proof.
  intros Hin Hdom. destruct v as [r |]; [| exact Hdom].
  unfold assignIf. rewrite dom_insert_L, Hdom.
  apply subseteq_union_1_L. by apply singleton_subseteq_l.
Qed.

Lemma dom_assignIf_sub key v (obj : gmap string R) (keys : gset string) :
  key ∈ keys → dom obj ⊆ keys → dom (assignIf key v obj) ⊆ keys.
Proof.
  intros Hin Hsub. destruct v as [r |]; [| exact Hsub].
  unfold assignIf. rewrite dom_insert_L.
  apply union_subseteq. split; [by apply singleton_subseteq_l | exact Hsub].
Qed.

Ltac lookup_obj :=
  repeat first
    [ rewrite lookup_assignIf_ne by discriminate
    | rewrite lookup_insert_ne by discriminate
    | rewrite lookup_assignIf_eq
    | rewrite lookup_insert_eq
    | rewrite lookup_singleton_eq
    | rewrite lookup_empty ].

(** ** The loop over the joint triples *)

Lemma bend_step calc (lm : list HandLandmark) (angles : gmap string R) finger a b c :
  (if truthy (lm !! a) && truthy (lm !! b) && truthy (lm !! c) then
     pa ← deref (lm !! a); pb ← deref (lm !! b); pc ← deref (lm !! c);
     mret (<[finger := calc pa pb pc]> angles)
   else mret angles)
  = Normal (assignIf finger (jointAngle calc lm a b c) angles).
Proof.
  unfold jointAngle.
  destruct (lm !! a), (lm !! b), (lm !! c); reflexivity.
Qed.

Lemma processAngles_run lm :
  processAngles lm = Normal (fingerMap calculateAngle lm).
Proof.
  unfold processAngles, forEach, FINGER_JOINTS. cbn [forEach_from].
  repeat (rewrite bend_step; cbn [mbind completion_bind]).
  reflexivity.
Qed.

Lemma processSideAngles_run lm :
  Guarded.processSideAngles lm = Normal (fingerMap Guarded.calculateSideBend lm).
Proof.
  unfold Guarded.processSideAngles, forEach, FINGER_JOINTS. cbn [forEach_from].
  repeat (rewrite bend_step; cbn [mbind completion_bind]).
  reflexivity.
Qed.

Lemma fingerMap_dom calc lm : dom (fingerMap calc lm) = fingerNames.
Proof.
  unfold fingerMap, FINGER_JOINTS. cbn [fold_left].
  assert (H0 : dom ({[ "Thumb" := 0; "Index" := 0; "Middle" := 0; "Ring" := 0;
                      "Pinky" := 0 ]} : gmap string R) = fingerNames).
  { rewrite !dom_insert_L, dom_singleton_L. unfold fingerNames. set_solver. }
  repeat (apply dom_assignIf_keep; [unfold fingerNames; set_solver |]).
  exact H0.
Qed.

Lemma fingerMap_size calc lm : size (fingerMap calc lm) = 5%nat.
Proof. rewrite <- size_dom, fingerMap_dom. reflexivity. Qed.

Lemma fingerMap_lookup calc lm finger a b c :
  In (finger, (a, b, c)) FINGER_JOINTS →
  fingerMap calc lm !! finger
  = Some (match jointAngle calc lm a b c with Some r => r | None => 0 end).
Proof.
  intros Hin. unfold fingerMap.
  cbn in Hin.
  destruct Hin as [H | [H | [H | [H | [H | []]]]]]; inversion H; subst;
    cbn [fold_left FINGER_JOINTS]; lookup_obj;
    destruct (jointAngle calc lm _ _ _); lookup_obj; reflexivity.
Qed.

(** ** The loop over the fingertip pairs *)

Lemma pair_step (lm : list HandLandmark) (angles : gmap string R) (key : string) i j :
  (if truthy (lm !! i) && truthy (lm !! j) then
     t2 ← deref (lm !! j); t1 ← deref (lm !! i);
     mret (<[key := Rabs (atan2 (y t2 - y t1) (x t2 - x t1) * 180 / PI)]> angles)
   else mret angles)
  = Normal (assignIf key (pairAngle lm i j) angles).
Proof.
  unfold pairAngle. destruct (lm !! i), (lm !! j); reflexivity.
Qed.

Lemma guarded_pairs_run lm :
  Guarded.processFingerPairAngles lm = Normal (pairMap lm).
Proof.
  unfold Guarded.processFingerPairAngles, forEach.
  cbn [forEach_from FINGER_TIPS length seq Nat.sub Nat.add lookup list_lookup
       at_index show_index].
  repeat (rewrite pair_step; cbn [mbind completion_bind]).
  reflexivity.
Qed.


Lemma pairMap_dom lm : dom (pairMap lm) ⊆ pairKeys.
Proof.
  unfold pairMap, tipPairs. cbn [fold_left].
  repeat (apply dom_assignIf_sub; [unfold pairKeys; set_solver |]).
  rewrite dom_empty_L. set_solver.
Qed.

Lemma pairMap_size lm : (size (pairMap lm) <= 4)%nat.
Proof.
  rewrite <- size_dom.
  change 4%nat with (size pairKeys).
  apply subseteq_size, pairMap_dom.
Qed.

Lemma pairMap_lookup lm key i j :
  In (key, (i, j)) tipPairs → pairMap lm !! key = pairAngle lm i j.
Proof.
  intros Hin. unfold pairMap. cbn in Hin.
  destruct Hin as [H | [H | [H | [H | []]]]]; inversion H; subst;
    cbn [fold_left tipPairs]; lookup_obj;
    destruct (pairAngle lm _ _); lookup_obj; reflexivity.
Qed.

Lemma pairMap_lookup_other lm key :
  key ∉ pairKeys → pairMap lm !! key = None.
Proof.
  intros Hout. apply not_elem_of_dom. intros Hin. apply Hout.
  now apply (pairMap_dom lm).
Qed.

Lemma pairAngle_range lm i j v :
  pairAngle lm i j = Some v → 0 <= v <= 180.
Proof.
  unfold pairAngle. destruct (lm !! i) as [t1 |], (lm !! j) as [t2 |]; try discriminate.
  intros [= <-]. split; [apply Rabs_pos |].
  pose proof PI_RGT_0 as Hpi.
  pose proof (atan2_bound (y t2 - y t1) (x t2 - x t1)) as [Hlo Hhi].
  set (r := atan2 _ _) in *.
  replace (r * 180 / PI) with (r * (180 / PI)) by (field; lra).
  assert (Hk : 0 < 180 / PI) by (apply Rdiv_lt_0_compat; lra).
  rewrite Rabs_mult, (Rabs_pos_eq (180 / PI)) by lra.
  replace 180 with (PI * (180 / PI)) at 2 by (field; lra).
  apply Rmult_le_compat_r; [lra |].
  apply Rabs_le. lra.
Qed.

(** ** The bend angle: range, degenerate points, symmetry *)

(** C4.  [calculateAngle a b c] is the absolute difference of the polar angles
    of b→c and b→a in degrees, replaced by 360 minus itself when it exceeds
    180; it lies in [0, 180]; and three coincident points give 0. *)
Theorem calculateAngle_formula_range (a b c : HandLandmark) :
  let deg :=
    Rabs ((atan2 (y c - y b) (x c - x b) - atan2 (y a - y b) (x a - x b))
          * (180 / PI)) in
  calculateAngle a b c = (if Rlt_dec 180 deg then 360 - deg else deg)
  ∧ calculateAngle a b c = Rmin deg (360 - deg)
  ∧ 0 <= calculateAngle a b c <= 180
  ∧ calculateAngle a a a = 0.
Proof.
  intros deg. repeat split.
  - unfold calculateAngle. fold deg. apply reflect_min.
  - apply calculateAngle_range.
  - apply calculateAngle_range.
  - unfold calculateAngle.
    replace (y a - y a) with 0 by ring. replace (x a - x a) with 0 by ring.
    rewrite atan2_origin.
    replace ((0 - 0) * (180 / PI)) with 0 by ring.
    rewrite Rabs_R0. destruct (Rlt_dec 180 0); lra.
Qed.

(** C7.  Swapping the base point and the tip point leaves the bend angle
    unchanged. *)
Theorem calculateAngle_swap (a b c : HandLandmark) :
  calculateAngle a b c = calculateAngle c b a.
Proof.
  unfold calculateAngle.
  set (p := atan2 (y c - y b) (x c - x b)).
  set (q := atan2 (y a - y b) (x a - x b)).
  replace ((q - p) * (180 / PI)) with (- ((p - q) * (180 / PI))) by ring.
  now rewrite Rabs_Ropp.
Qed.

(** ** The five finger angles *)

Lemma lookup_map {A B : Type} (f : A → B) (l : list A) (i : nat) :
  map f l !! i = option_map f (l !! i).
Proof.
  revert i. induction l as [| e l IH]; intros [| i]; cbn; try reflexivity.
  apply IH.
Qed.

Lemma zeroTipHand_index_angle :
  calculateAngle (mkLandmark 1 1 0) (mkLandmark 0 1 0) (mkLandmark 0 0 0) = 90.
Proof.
  pose proof PI_RGT_0 as Hpi.
  unfold calculateAngle. cbn [x y].
  rewrite (atan2_negative_y_axis (0 - 1) (0 - 0)) by lra.
  rewrite (atan2_positive_x_axis (1 - 1) (1 - 0)) by lra.
  replace ((- (PI / 2) - 0) * (180 / PI)) with (- 90) by (field; lra).
  rewrite Rabs_left by lra.
  destruct (Rlt_dec 180 (- - 90)); lra.
Qed.

(** C3, as written, fails: a complete hand whose index fingertip is the zero
    vector gets the computed index angle 90, not the default 0. *)
Lemma zero_vector_tip_is_not_missing :
  length zeroTipHand = 21%nat
  ∧ zeroTipHand !! 8%nat = Some (mkLandmark 0 0 0)
  ∧ ∃ angles, processAngles zeroTipHand = Normal angles
      ∧ angles !! "Index" = Some 90
      ∧ angles !! "Index" ≠ Some 0.
Proof.
  split; [reflexivity |]. split; [reflexivity |].
  exists (fingerMap calculateAngle zeroTipHand).
  split; [apply processAngles_run |].
  assert (Hidx : fingerMap calculateAngle zeroTipHand !! "Index" = Some 90).
  { rewrite (fingerMap_lookup _ _ "Index" 5 6 8) by (cbn; tauto).
    unfold jointAngle, zeroTipHand. cbn [lookup list_lookup].
    now rewrite zeroTipHand_index_angle. }
  split; [exact Hidx |].
  rewrite Hidx. intros [= H]. lra.
Qed.

(** C3, amended.  For every landmark list [processAngles] returns an object
    with exactly the five keys Thumb, Index, Middle, Ring and Pinky; a finger's
    value is [calculateAngle] of its three joint landmarks when all three are
    present in the list, and 0 when one of them is missing.  (A landmark that
    is present with zero coordinates is not missing.) *)
Theorem fingerAngles_five_entries (lm : list HandLandmark) :
  ∃ angles, processAngles lm = Normal angles
    ∧ dom angles = fingerNames
    ∧ size angles = 5%nat
    ∧ ∀ finger a b c, In (finger, (a, b, c)) FINGER_JOINTS →
        angles !! finger
        = Some match lm !! a, lm !! b, lm !! c with
               | Some pa, Some pb, Some pc => calculateAngle pa pb pc
               | _, _, _ => 0
               end.
Proof.
  exists (fingerMap calculateAngle lm).
  split; [apply processAngles_run |].
  split; [apply fingerMap_dom |].
  split; [apply fingerMap_size |].
  intros finger a b c Hin.
  rewrite (fingerMap_lookup _ _ finger a b c Hin). unfold jointAngle.
  destruct (lm !! a), (lm !! b), (lm !! c); reflexivity.
Qed.

(** C10.  The angle [processAngles] stores for a finger is a function of the
    three landmarks at that finger's joint indices alone: two landmark lists
    that agree at these three indices get the same value for the finger. *)
Theorem processAngles_depends_on_triple
    (lm lm' : list HandLandmark) (finger : string) (a b c : nat) :
  In (finger, (a, b, c)) FINGER_JOINTS →
  lm !! a = lm' !! a → lm !! b = lm' !! b → lm !! c = lm' !! c →
  ∃ angles angles' v,
    processAngles lm = Normal angles
    ∧ processAngles lm' = Normal angles'
    ∧ angles !! finger = Some v
    ∧ angles' !! finger = Some v.
Proof.
  intros Hin Ha Hb Hc.
  exists (fingerMap calculateAngle lm), (fingerMap calculateAngle lm').
  exists (match jointAngle calculateAngle lm a b c with Some r => r | None => 0 end).
  split; [apply processAngles_run |].
  split; [apply processAngles_run |].
  split; [now apply fingerMap_lookup |].
  rewrite (fingerMap_lookup _ _ finger a b c Hin).
  unfold jointAngle. now rewrite Ha, Hb, Hc.
Qed.

Lemma processAngles_depends_on_triple_witness :
  In ("Index", (5, 6, 8)%nat) FINGER_JOINTS
  ∧ zeroTipHand !! 5%nat = otherHand !! 5%nat
  ∧ zeroTipHand !! 6%nat = otherHand !! 6%nat
  ∧ zeroTipHand !! 8%nat = otherHand !! 8%nat
  ∧ ∃ angles angles' v,
      processAngles zeroTipHand = Normal angles
      ∧ processAngles otherHand = Normal angles'
      ∧ angles !! "Index" = Some v
      ∧ angles' !! "Index" = Some v.
Proof.
  assert (Hin : In ("Index", (5, 6, 8)%nat) FINGER_JOINTS) by (simpl; tauto).
  split; [exact Hin |].
  split; [reflexivity |]. split; [reflexivity |]. split; [reflexivity |].
  apply (processAngles_depends_on_triple zeroTipHand otherHand "Index" 5 6 8 Hin);
    reflexivity.
Defined.

(** ** The side-bend angles *)

Lemma jointAngle_inZXPlane (lm : list HandLandmark) (a b c : nat) :
  jointAngle calculateAngle (map inZXPlane lm) a b c
  = jointAngle Guarded.calculateSideBend lm a b c.
Proof.
  unfold jointAngle. rewrite !lookup_map.
  destruct (lm !! a), (lm !! b), (lm !! c); reflexivity.
Qed.

(** C8.  [calculateSideBend] is the bend-angle formula evaluated in the
    (z, x) plane, and [processSideAngles] is [processAngles] on the landmarks
    seen in that plane: the same joint triples, and 0 for a finger with a
    missing landmark. *)
Theorem sideBend_is_bend_in_zx_plane :
  (∀ a b c, Guarded.calculateSideBend a b c = sideBend_spec a b c)
  ∧ (∀ a b c, Guarded.calculateSideBend a b c
       = let rad := atan2 (x c - x b) (z c - z b) - atan2 (x a - x b) (z a - z b) in
         let deg := Rabs (rad * (180 / PI)) in
         Rmin deg (360 - deg))
  ∧ (∀ lm, Guarded.processSideAngles lm = processAngles (map inZXPlane lm)).
Proof.
  split; [reflexivity |]. split.
  - intros a b c. unfold Guarded.calculateSideBend. cbv zeta. apply reflect_min.
  - intros lm. rewrite processSideAngles_run, processAngles_run. f_equal.
    unfold fingerMap, FINGER_JOINTS. cbn [fold_left].
    now rewrite !jointAngle_inZXPlane.
Qed.

(** ** One hand, and the loop over the hands *)

Lemma unguarded_pairs_raise (lm : list HandLandmark) :
  lm !! 20%nat = None → Unguarded.processFingerPairAngles lm = Throw TypeError.
Proof.
  intros H20.
  unfold Unguarded.processFingerPairAngles, forEach.
  cbn [forEach_from FINGER_TIPS length seq Nat.sub Nat.add lookup list_lookup
       at_index show_index].
  rewrite H20.
  destruct (lm !! 4%nat), (lm !! 8%nat), (lm !! 12%nat), (lm !! 16%nat);
    reflexivity.
Qed.

Lemma unguarded_pairs_run (lm : list HandLandmark) :
  (20 < length lm)%nat → Unguarded.processFingerPairAngles lm = Normal (pairMap lm).
Proof.
  intros Hlen.
  assert (Hsome : ∀ k, (k <= 20)%nat → is_Some (lm !! k)).
  { intros k Hk. apply lookup_lt_is_Some. lia. }
  destruct (Hsome 4%nat) as [t4 H4]; [lia |].
  destruct (Hsome 8%nat) as [t8 H8]; [lia |].
  destruct (Hsome 12%nat) as [t12 H12]; [lia |].
  destruct (Hsome 16%nat) as [t16 H16]; [lia |].
  destruct (Hsome 20%nat) as [t20 H20]; [lia |].
  unfold Unguarded.processFingerPairAngles, forEach.
  cbn [forEach_from FINGER_TIPS length seq Nat.sub Nat.add lookup list_lookup
       at_index show_index].
  unfold pairMap, tipPairs, pairAngle. cbn [fold_left].
  rewrite H4, H8, H12, H16, H20. reflexivity.
Qed.

Lemma guarded_onHand_run Date_now hds hands raw i h :
  hds !! i = Some h →
  Guarded.onHand Date_now hds hands raw i
  = Normal (hands ++ [handRecord Date_now h raw i])%list.
Proof.
  intros Hh. unfold Guarded.onHand. rewrite Hh. cbn [deref mbind completion_bind].
  rewrite processAngles_run. cbn [mbind completion_bind].
  rewrite guarded_pairs_run. cbn [mbind completion_bind].
  rewrite processSideAngles_run. cbn [mbind completion_bind].
  unfold handRecord, tipGap, hypot.
  destruct (toHandLandmarks raw !! 4%nat), (toHandLandmarks raw !! 8%nat);
    reflexivity.
Qed.

Lemma guarded_onHand_no_label Date_now hds hands raw i :
  hds !! i = None → Guarded.onHand Date_now hds hands raw i = Throw TypeError.
Proof. intros Hh. unfold Guarded.onHand. now rewrite Hh. Qed.

Lemma length_toHandLandmarks raw : length (toHandLandmarks raw) = length raw.
Proof. apply length_map. Qed.

Lemma unguarded_onHand_run Date_now hds hands raw i h :
  hds !! i = Some h → (20 < length raw)%nat →
  Unguarded.onHand Date_now hds hands raw i
  = Normal (hands ++ [handRecord Date_now h raw i])%list.
Proof.
  intros Hh Hlen. unfold Unguarded.onHand. rewrite Hh. cbn [deref mbind completion_bind].
  rewrite processAngles_run. cbn [mbind completion_bind].
  rewrite unguarded_pairs_run by (rewrite length_toHandLandmarks; lia).
  cbn [mbind completion_bind].
  unfold handRecord, tipGap, hypot.
  destruct (lookup_lt_is_Some_2 (toHandLandmarks raw) 4) as [t4 H4];
    [rewrite length_toHandLandmarks; lia |].
  destruct (lookup_lt_is_Some_2 (toHandLandmarks raw) 8) as [t8 H8];
    [rewrite length_toHandLandmarks; lia |].
  rewrite H4, H8. reflexivity.
Qed.

Lemma unguarded_onHand_raise Date_now hds hands raw i :
  (length raw < 21)%nat →
  Unguarded.onHand Date_now hds hands raw i = Throw TypeError.
Proof.
  intros Hlen. unfold Unguarded.onHand.
  destruct (hds !! i) as [h |]; [| reflexivity].
  cbn [deref mbind completion_bind].
  rewrite processAngles_run. cbn [mbind completion_bind].
  rewrite unguarded_pairs_raise; [reflexivity |].
  apply lookup_ge_None. rewrite length_toHandLandmarks. lia.
Qed.


Lemma unguarded_onHand_shape Date_now hds hands raw i hands' :
  Unguarded.onHand Date_now hds hands raw i = Normal hands' →
  ∃ hand, hands' = (hands ++ [hand])%list ∧ landmarks hand = toHandLandmarks raw.
Proof.
  intros Hrun.
  destruct (decide (length raw < 21)%nat) as [Hshort | Hfull].
  - rewrite unguarded_onHand_raise in Hrun by exact Hshort. discriminate.
  - destruct (hds !! i) as [h |] eqn:Hh.
    + rewrite (unguarded_onHand_run _ _ _ _ _ h Hh) in Hrun by lia.
      injection Hrun as <-. now exists (handRecord Date_now h raw i).
    + unfold Unguarded.onHand in Hrun. rewrite Hh in Hrun. discriminate.
Qed.

Lemma unguarded_forEach_shape Date_now hds hls :
  ∀ i hands hands',
  forEach_from (Unguarded.onHand Date_now hds) i hls hands = Normal hands' →
  map landmarks hands' = (map landmarks hands ++ map toHandLandmarks hls)%list.
Proof.
  induction hls as [| raw rest IH]; intros i hands hands' Hrun.
  - cbn in Hrun. injection Hrun as <-. cbn. now rewrite app_nil_r.
  - cbn [forEach_from] in Hrun.
    destruct (Unguarded.onHand Date_now hds hands raw i) as [mid | e] eqn:Hstep;
      [| discriminate].
    cbn [mbind completion_bind] in Hrun.
    destruct (unguarded_onHand_shape _ _ _ _ _ _ Hstep) as (hand & -> & Hlm).
    rewrite (IH _ _ _ Hrun), map_app. cbn. now rewrite Hlm, <- app_assoc.
Qed.


(** ** The assembled frame *)




(** ** The thumb-index gap *)

Lemma tipGap_nonneg (lm : list HandLandmark) : 0 <= tipGap lm.
Proof.
  unfold tipGap. destruct (lm !! 4%nat), (lm !! 8%nat); try lra.
  apply sqrt_pos.
Qed.

Lemma tipGap_missing (lm : list HandLandmark) :
  lm !! 4%nat = None ∨ lm !! 8%nat = None → tipGap lm = 0.
Proof.
  unfold tipGap. intros [-> | ->]; [reflexivity |].
  destruct (lm !! 4%nat); reflexivity.
Qed.

Lemma tipGap_three_four_five (lm : list HandLandmark) :
  lm !! 4%nat = Some (mkLandmark 0 0 0) →
  lm !! 8%nat = Some (mkLandmark 3 4 0) →
  tipGap lm = 5.
Proof.
  intros H4 H8. unfold tipGap. rewrite H4, H8. cbn [x y].
  replace ((3 - 0) * (3 - 0) + (4 - 0) * (4 - 0)) with (5 * 5) by ring.
  apply sqrt_square. lra.
Qed.

(** X22.  In the guarded variant the record of every hand that has a
    handedness entry carries as gap the distance sqrt(dx*dx + dy*dy) of the
    thumb tip and the index tip in the image plane, or 0 when one of them is
    missing; the gap is never negative. *)
Lemma guarded_gap Date_now hds hands raw i h :
  hds !! i = Some h →
  ∃ hand, Guarded.onHand Date_now hds hands raw i = Normal (hands ++ [hand])%list
    ∧ gap hand = tipGap (toHandLandmarks raw)
    ∧ 0 <= gap hand.
Proof.
  intros Hh. exists (handRecord Date_now h raw i).
  split; [now apply guarded_onHand_run |].
  split; [reflexivity | apply tipGap_nonneg].
Qed.

Lemma guarded_gap_witness :
  [mkHandedness "Right"] !! 0%nat = Some (mkHandedness "Right")
  ∧ ∃ hand,
      Guarded.onHand clock0 [mkHandedness "Right"] [] thumbOnlyRawHand 0
      = Normal ([] ++ [hand])%list
      ∧ gap hand = tipGap (toHandLandmarks thumbOnlyRawHand)
      ∧ 0 <= gap hand.
Proof.
  split; [reflexivity |].
  apply (guarded_gap clock0 [mkHandedness "Right"] [] thumbOnlyRawHand 0
           (mkHandedness "Right")).
  reflexivity.
Defined.

(** ** The fingertip pairs in the guarded variant *)

(** X21.  For every landmark list the guarded [processFingerPairAngles]
    returns an object of at most four entries, with keys among "4_8", "8_12",
    "12_16" and "16_20"; a pair has an entry exactly when both of its tips
    are present, its value being the absolute direction angle in degrees; and
    every value is in [0, 180]. *)
Lemma guarded_pairs_spec (lm : list HandLandmark) :
  ∃ pairs, Guarded.processFingerPairAngles lm = Normal pairs
    ∧ dom pairs ⊆ pairKeys
    ∧ (size pairs <= 4)%nat
    ∧ (∀ key i j, In (key, (i, j)) tipPairs → pairs !! key = pairAngle lm i j)
    ∧ (∀ key v, pairs !! key = Some v → 0 <= v <= 180).
Proof.
  exists (pairMap lm).
  split; [apply guarded_pairs_run |].
  split; [apply pairMap_dom |].
  split; [apply pairMap_size |].
  split; [intros key i j; apply pairMap_lookup |].
  intros key v Hv.
  assert (Hkey : key ∈ pairKeys).
  { apply (pairMap_dom lm), elem_of_dom. now exists v. }
  unfold pairKeys in Hkey. rewrite !elem_of_union, !elem_of_singleton in Hkey.
  destruct Hkey as [[[-> | ->] | ->] | ->].
  - rewrite (pairMap_lookup lm "4_8" 4 8) in Hv by (simpl; tauto).
    now apply pairAngle_range in Hv.
  - rewrite (pairMap_lookup lm "8_12" 8 12) in Hv by (simpl; tauto).
    now apply pairAngle_range in Hv.
  - rewrite (pairMap_lookup lm "12_16" 12 16) in Hv by (simpl; tauto).
    now apply pairAngle_range in Hv.
  - rewrite (pairMap_lookup lm "16_20" 16 20) in Hv by (simpl; tauto).
    now apply pairAngle_range in Hv.
Qed.

(** ** Short hands in the unguarded variant *)

(** C5 at a hand of nine landmarks: thumb and index tips are present, the
    other three are not.  The unguarded variant raises; the guarded variant
    returns the object with the single key "4_8". *)
Lemma unguarded_pairs_raise_on_missing_tip :
  Unguarded.processFingerPairAngles otherHand = Throw TypeError
  ∧ ∃ v, Guarded.processFingerPairAngles otherHand = Normal {[ "4_8" := v ]}.
Proof.
  split.
  - now apply unguarded_pairs_raise.
  - eexists. rewrite guarded_pairs_run.
    unfold pairMap, tipPairs, pairAngle, otherHand.
    cbn [fold_left lookup list_lookup assignIf].
    rewrite insert_empty. reflexivity.
Qed.

(** C2 at a frame of two hands, the first of 21 and the second of 20
    landmarks.  The unguarded variant raises and emits nothing; the guarded
    variant emits two records. *)
Lemma unguarded_onResults_raise_on_short_hand :
  Unguarded.onResults true clock0 twoHandFrame = Throw TypeError
  ∧ ∃ hands, Guarded.onResults true clock0 twoHandFrame = Normal (Some hands)
      ∧ length hands = 2%nat.
Proof.
  split.
  - unfold Unguarded.onResults, twoHandFrame, forEach.
    cbn [negb multiHandLandmarks multiHandedness forEach_from].
    rewrite (unguarded_onHand_run _ _ _ _ _ (mkHandedness "Right"));
      [| reflexivity | unfold fullRawHand; rewrite length_replicate; lia].
    cbn [mbind completion_bind].
    rewrite unguarded_onHand_raise; [reflexivity |].
    unfold shortRawHand. rewrite length_replicate. lia.
  - eexists. split.
    + unfold Guarded.onResults, twoHandFrame, forEach.
      cbn [negb multiHandLandmarks multiHandedness forEach_from].
      rewrite (guarded_onHand_run _ _ _ _ _ (mkHandedness "Right")) by reflexivity.
      cbn [mbind completion_bind].
      rewrite (guarded_onHand_run _ _ _ _ _ (mkHandedness "Left")) by reflexivity.
      reflexivity.
    + reflexivity.
Qed.

(** C6 at a frame whose only hand has five landmarks: the thumb tip is
    present, the index tip is not.  The unguarded variant raises; the guarded
    variant emits one record, with gap 0. *)
Lemma unguarded_onResults_raise_on_missing_index_tip :
  Unguarded.onResults true clock0 thumbOnlyFrame = Throw TypeError
  ∧ ∃ hand, Guarded.onResults true clock0 thumbOnlyFrame = Normal (Some [hand])
      ∧ gap hand = 0.
Proof.
  split.
  - unfold Unguarded.onResults, thumbOnlyFrame, forEach.
    cbn [negb multiHandLandmarks multiHandedness forEach_from].
    rewrite unguarded_onHand_raise; [reflexivity |].
    unfold thumbOnlyRawHand. rewrite length_replicate. lia.
  - exists (handRecord clock0 (mkHandedness "Right") thumbOnlyRawHand 0). split.
    + unfold Guarded.onResults, thumbOnlyFrame, forEach.
      cbn [negb multiHandLandmarks multiHandedness forEach_from].
      rewrite (guarded_onHand_run _ _ _ _ _ (mkHandedness "Right")) by reflexivity.
      reflexivity.
    + cbn [handRecord gap]. apply tipGap_missing. right. reflexivity.
Qed.

(** ** The guarded extractor is total *)

(** C9.  In the guarded variant the per-hand computations return for a
    landmark list of any length, the empty one included: [processAngles] and
    [processSideAngles] give an object with the five finger keys,
    [processFingerPairAngles] an object of at most four entries among the four
    pair keys, and, for a hand that has a handedness entry, the callback
    pushes one record with those objects and a gap that is non-negative and
    is 0 when the thumb tip or the index tip is absent.  Nothing raises. *)
Theorem guarded_extractor_total
    (lm : list HandLandmark)
    (Date_now : nat → Z) (hds : list Handedness) (hands : list HandData)
    (raw : list NormalizedLandmark.t) (i : nat) (h : Handedness) :
  hds !! i = Some h →
  (∃ angles side pairs,
      processAngles lm = Normal angles
      ∧ dom angles = fingerNames ∧ size angles = 5%nat
      ∧ Guarded.processSideAngles lm = Normal side
      ∧ dom side = fingerNames ∧ size side = 5%nat
      ∧ Guarded.processFingerPairAngles lm = Normal pairs
      ∧ dom pairs ⊆ pairKeys ∧ (size pairs <= 4)%nat)
  ∧ (∃ hand pairs,
      Guarded.onHand Date_now hds hands raw i = Normal (hands ++ [hand])%list
      ∧ landmarks hand = toHandLandmarks raw
      ∧ dom (fingerAngles hand) = fingerNames
      ∧ size (fingerAngles hand) = 5%nat
      ∧ fingerPairAngles hand = Some pairs
      ∧ (size pairs <= 4)%nat
      ∧ 0 <= gap hand
      ∧ (toHandLandmarks raw !! 4%nat = None ∨ toHandLandmarks raw !! 8%nat = None →
         gap hand = 0)).
Proof.
  intros Hh. split.
  - exists (fingerMap calculateAngle lm), (fingerMap Guarded.calculateSideBend lm),
      (pairMap lm).
    repeat split;
      auto using processAngles_run, processSideAngles_run, guarded_pairs_run,
        fingerMap_dom, fingerMap_size, pairMap_dom, pairMap_size.
  - exists (handRecord Date_now h raw i), (pairMap (toHandLandmarks raw)).
    split; [now apply guarded_onHand_run |].
    cbn [handRecord landmarks fingerAngles fingerPairAngles gap].
    repeat split;
      auto using fingerMap_dom, fingerMap_size, pairMap_size, tipGap_nonneg,
        tipGap_missing.
Qed.

Lemma guarded_extractor_total_witness :
  [mkHandedness "Right"] !! 0%nat = Some (mkHandedness "Right")
  ∧ (∃ angles side pairs,
        processAngles [] = Normal angles
        ∧ dom angles = fingerNames ∧ size angles = 5%nat
        ∧ Guarded.processSideAngles [] = Normal side
        ∧ dom side = fingerNames ∧ size side = 5%nat
        ∧ Guarded.processFingerPairAngles [] = Normal pairs
        ∧ dom pairs ⊆ pairKeys ∧ (size pairs <= 4)%nat)
    ∧ (∃ hand pairs,
        Guarded.onHand clock0 [mkHandedness "Right"] [] [] 0 = Normal ([] ++ [hand])%list
        ∧ landmarks hand = toHandLandmarks []
        ∧ dom (fingerAngles hand) = fingerNames
        ∧ size (fingerAngles hand) = 5%nat
        ∧ fingerPairAngles hand = Some pairs
        ∧ (size pairs <= 4)%nat
        ∧ 0 <= gap hand
        ∧ (toHandLandmarks [] !! 4%nat = None ∨ toHandLandmarks [] !! 8%nat = None →
           gap hand = 0)).
Proof.
  split; [reflexivity |].
  apply (guarded_extractor_total [] clock0 [mkHandedness "Right"] [] [] 0
           (mkHandedness "Right")).
  reflexivity.
Defined.

(** ** More on the assembled frame *)

Lemma guarded_forEach_records Date_now hds hls :
  ∀ i hands, (i + length hls <= length hds)%nat →
  ∃ out, forEach_from (Guarded.onHand Date_now hds) i hls hands
         = Normal (hands ++ out)%list
    ∧ length out = length hls
    ∧ ∀ j raw h, hls !! j = Some raw → hds !! (i + j)%nat = Some h →
        out !! j = Some (handRecord Date_now h raw (i + j)).
Proof.
  induction hls as [| raw0 rest IH]; intros i hands Hlen.
  - exists []. split; [now rewrite app_nil_r |]. split; [reflexivity |].
    intros j raw h Hj. destruct j; discriminate.
  - cbn [length] in Hlen.
    destruct (lookup_lt_is_Some_2 hds i) as [h0 Hh0]; [lia |].
    cbn [forEach_from]. rewrite (guarded_onHand_run _ _ _ _ _ _ Hh0).
    cbn [mbind completion_bind].
    destruct (IH (S i) (hands ++ [handRecord Date_now h0 raw0 i])%list)
      as (out & Hrun & Hout & Hrec); [lia |].
    exists (handRecord Date_now h0 raw0 i :: out).
    split; [now rewrite Hrun, <- app_assoc |].
    split; [cbn; now rewrite Hout |].
    intros [| j] raw h Hj Hh.
    + cbn in Hj. injection Hj as <-. rewrite Nat.add_0_r in Hh |- *.
      rewrite Hh0 in Hh. injection Hh as <-. reflexivity.
    + cbn in Hj. cbn [lookup list_lookup].
      replace (i + S j)%nat with (S i + j)%nat in * by lia.
      now apply Hrec.
Qed.

(** X4.  When every detected hand has a handedness entry, the guarded
    variant emits as many records as there are hands, and the record at
    position j holds the landmarks of hand j, the label of handedness entry j
    and the clock reading taken for hand j. *)
Theorem guarded_onResults_records
    (Date_now : nat → Z) (hls : list (list NormalizedLandmark.t))
    (hds : list Handedness) :
  (length hls <= length hds)%nat →
  ∃ hands,
    Guarded.onResults true Date_now (mkResults (Some hls) (Some hds))
    = Normal (Some hands)
    ∧ length hands = length hls
    ∧ ∀ j raw h, hls !! j = Some raw → hds !! j = Some h →
        ∃ hand, hands !! j = Some hand
          ∧ landmarks hand = toHandLandmarks raw
          ∧ handedness hand = label h
          ∧ timestamp hand = Date_now j.
Proof.
  intros Hlen.
  destruct (guarded_forEach_records Date_now hds hls 0 []) as (out & Hrun & Hout & Hrec);
    [cbn; lia |].
  exists out. split.
  - unfold Guarded.onResults, forEach.
    cbn [negb multiHandLandmarks multiHandedness]. now rewrite Hrun.
  - split; [exact Hout |].
    intros j raw h Hj Hh. exists (handRecord Date_now h raw j).
    split; [now apply (Hrec j raw h) |]. repeat split.
Qed.

Lemma guarded_onResults_records_witness :
  (length [shortRawHand] <= length [mkHandedness "Right"])%nat
  ∧ ∃ hands,
      Guarded.onResults true clock0
        (mkResults (Some [shortRawHand]) (Some [mkHandedness "Right"]))
      = Normal (Some hands)
      ∧ length hands = length [shortRawHand]
      ∧ ∀ j raw h, [shortRawHand] !! j = Some raw →
          [mkHandedness "Right"] !! j = Some h →
          ∃ hand, hands !! j = Some hand
            ∧ landmarks hand = toHandLandmarks raw
            ∧ handedness hand = label h
            ∧ timestamp hand = clock0 j.
Proof.
  split; [simpl; lia |].
  apply (guarded_onResults_records clock0 [shortRawHand] [mkHandedness "Right"]).
  simpl. lia.
Defined.

(** A loop whose body raises at an index without handedness entry raises
    when the hands outnumber the entries. *)
Lemma forEach_missing_label
    (body : list HandData → list NormalizedLandmark.t → nat → completion (list HandData))
    (hds : list Handedness) :
  (∀ hands raw i, hds !! i = None → body hands raw i = Throw TypeError) →
  ∀ hls i hands, (i <= length hds < i + length hls)%nat →
  forEach_from body i hls hands = Throw TypeError.
Proof.
  intros Hbody. induction hls as [| raw rest IH]; intros i hands Hlen.
  - cbn in Hlen. lia.
  - cbn [length] in Hlen. cbn [forEach_from].
    destruct (decide (i = length hds)) as [-> | Hne].
    + rewrite Hbody; [reflexivity |]. apply lookup_ge_None. lia.
    + destruct (body hands raw i) as [mid | []]; [| reflexivity].
      cbn [mbind completion_bind]. apply IH. lia.
Qed.

Lemma unguarded_onHand_no_label Date_now hds hands raw i :
  hds !! i = None → Unguarded.onHand Date_now hds hands raw i = Throw TypeError.
Proof. intros Hh. unfold Unguarded.onHand. now rewrite Hh. Qed.

(** X5.  When the detector reports more hands than handedness entries, both
    variants of [onResults] raise a TypeError and emit nothing. *)
Theorem onResults_missing_handedness_raises
    (Date_now : nat → Z) (hls : list (list NormalizedLandmark.t))
    (hds : list Handedness) :
  (length hds < length hls)%nat →
  Guarded.onResults true Date_now (mkResults (Some hls) (Some hds)) = Throw TypeError
  ∧ Unguarded.onResults true Date_now (mkResults (Some hls) (Some hds)) = Throw TypeError.
Proof.
  intros Hlen. split.
  - unfold Guarded.onResults, forEach. cbn [negb multiHandLandmarks multiHandedness].
    rewrite (forEach_missing_label _ hds); [reflexivity | | lia].
    intros hands raw i. apply guarded_onHand_no_label.
  - unfold Unguarded.onResults, forEach. cbn [negb multiHandLandmarks multiHandedness].
    rewrite (forEach_missing_label _ hds); [reflexivity | | lia].
    intros hands raw i. apply unguarded_onHand_no_label.
Qed.

Lemma onResults_missing_handedness_raises_witness :
  (length (@nil Handedness) < length [fullRawHand])%nat
  ∧ Guarded.onResults true clock0 (mkResults (Some [fullRawHand]) (Some [])) = Throw TypeError
  ∧ Unguarded.onResults true clock0 (mkResults (Some [fullRawHand]) (Some [])) = Throw TypeError.
Proof.
  split; [simpl; lia |].
  apply (onResults_missing_handedness_raises clock0 [fullRawHand] []).
  simpl. lia.
Defined.

(** ** The two variants compared *)

Lemma onHand_agree Date_now hds hands raw i :
  (21 <= length raw)%nat →
  Unguarded.onHand Date_now hds hands raw i = Guarded.onHand Date_now hds hands raw i.
Proof.
  intros Hlen. destruct (hds !! i) as [h |] eqn:Hh.
  - rewrite (unguarded_onHand_run _ _ _ _ _ h Hh) by lia.
    now rewrite (guarded_onHand_run _ _ _ _ _ h Hh).
  - now rewrite unguarded_onHand_no_label, guarded_onHand_no_label.
Qed.

Lemma forEach_agree Date_now hds hls :
  Forall (λ raw : list NormalizedLandmark.t, (21 <= length raw)%nat) hls →
  ∀ i hands,
  forEach_from (Unguarded.onHand Date_now hds) i hls hands
  = forEach_from (Guarded.onHand Date_now hds) i hls hands.
Proof.
  induction 1 as [| raw rest Hraw _ IH]; intros i hands; [reflexivity |].
  cbn [forEach_from]. rewrite (onHand_agree _ _ _ _ _ Hraw).
  destruct (Guarded.onHand Date_now hds hands raw i) as [mid | e]; [| reflexivity].
  cbn [mbind completion_bind]. apply IH.
Qed.

(** X6.  On a frame whose hands all have at least 21 landmarks the two
    variants of [onResults] do the same: the same records, or the same raise. *)
Theorem variants_agree_on_full_hands
    (ready : bool) (Date_now : nat → Z) (results : Results) :
  (∀ hls, multiHandLandmarks results = Some hls →
     Forall (λ raw : list NormalizedLandmark.t, (21 <= length raw)%nat) hls) →
  Unguarded.onResults ready Date_now results = Guarded.onResults ready Date_now results.
Proof.
  intros Hfull. unfold Unguarded.onResults, Guarded.onResults, forEach.
  destruct (negb ready); [reflexivity |].
  destruct (multiHandLandmarks results) as [hls |]; [| reflexivity].
  destruct (multiHandedness results) as [hds |]; [| reflexivity].
  now rewrite forEach_agree by auto.
Qed.

Lemma full_frame_hands hls :
  multiHandLandmarks (mkResults (Some [fullRawHand]) (Some [mkHandedness "Right"])) = Some hls →
  Forall (λ raw : list NormalizedLandmark.t, (21 <= length raw)%nat) hls.
Proof.
  cbn [multiHandLandmarks]. intros [= <-]. constructor; [| constructor].
  unfold fullRawHand. rewrite length_replicate. lia.
Defined.

Lemma variants_agree_on_full_hands_witness :
  (∀ hls, multiHandLandmarks (mkResults (Some [fullRawHand]) (Some [mkHandedness "Right"]))
          = Some hls →
     Forall (λ raw : list NormalizedLandmark.t, (21 <= length raw)%nat) hls)
  ∧ Unguarded.onResults true clock0
      (mkResults (Some [fullRawHand]) (Some [mkHandedness "Right"]))
    = Guarded.onResults true clock0
      (mkResults (Some [fullRawHand]) (Some [mkHandedness "Right"])).
Proof.
  split; [exact full_frame_hands |].
  apply (variants_agree_on_full_hands true clock0
           (mkResults (Some [fullRawHand]) (Some [mkHandedness "Right"]))).
  exact full_frame_hands.
Defined.

Lemma unguarded_forEach_full Date_now hds hls :
  ∀ i hands out,
  forEach_from (Unguarded.onHand Date_now hds) i hls hands = Normal out →
  Forall (λ raw : list NormalizedLandmark.t, (21 <= length raw)%nat) hls.
Proof.
  induction hls as [| raw rest IH]; intros i hands out Hrun; [constructor |].
  cbn [forEach_from] in Hrun.
  destruct (Unguarded.onHand Date_now hds hands raw i) as [mid | e] eqn:Hstep;
    [| discriminate].
  cbn [mbind completion_bind] in Hrun. constructor; [| now apply (IH _ _ _ Hrun)].
  destruct (decide (length raw < 21)%nat) as [Hshort | Hfull]; [| lia].
  rewrite unguarded_onHand_raise in Hstep by exact Hshort. discriminate.
Qed.

(** X7.  Whenever the unguarded variant emits a list, every record in it has
    at least 21 landmarks.  When the results hold both multiHandLandmarks and
    multiHandedness, every detected hand had at least 21 landmarks and the
    list has one record per hand; when either is absent the list is empty,
    whatever was detected. *)
Theorem unguarded_emits_only_full_hands
    (ready : bool) (Date_now : nat → Z) (results : Results)
    (hands : list HandData) :
  Unguarded.onResults ready Date_now results = Normal (Some hands) →
  Forall (λ hand, (21 <= length (landmarks hand))%nat) hands
  ∧ match multiHandLandmarks results, multiHandedness results with
    | Some hls, Some _ =>
        Forall (λ raw : list NormalizedLandmark.t, (21 <= length raw)%nat) hls
        ∧ length hands = length hls
    | _, _ => hands = []
    end.
Proof.
  intros Hrun. unfold Unguarded.onResults, forEach in Hrun.
  destruct ready; [| discriminate]. cbn [negb] in Hrun.
  destruct (multiHandLandmarks results) as [hls |];
    [| injection Hrun as <-; split; [constructor | reflexivity]].
  destruct (multiHandedness results) as [hds |];
    [| injection Hrun as <-; split; [constructor | reflexivity]].
  destruct (forEach_from _ 0 hls []) as [out | e] eqn:Hloop; [| discriminate].
  cbn in Hrun. injection Hrun as <-.
  pose proof (unguarded_forEach_full _ _ _ _ _ _ Hloop) as Hfull.
  pose proof (unguarded_forEach_shape _ _ _ _ _ _ Hloop) as Hmap. cbn in Hmap.
  split; [| split; [exact Hfull |]].
  - apply Forall_forall. intros hand Hin.
    assert (Hlm : In (landmarks hand) (map toHandLandmarks hls)).
    { rewrite <- Hmap. apply in_map. now apply list_elem_of_In. }
    apply in_map_iff in Hlm as (raw & Heq & Hraw).
    rewrite <- Heq, length_toHandLandmarks.
    rewrite Forall_forall in Hfull. apply Hfull. now apply list_elem_of_In.
  - rewrite <- (length_map landmarks), Hmap. apply length_map.
Qed.

Lemma unguarded_emits_only_full_hands_witness :
  Unguarded.onResults true clock0
    (mkResults (Some [fullRawHand]) (Some [mkHandedness "Right"]))
  = Normal (Some [handRecord clock0 (mkHandedness "Right") fullRawHand 0])
  ∧ Forall (λ hand, (21 <= length (landmarks hand))%nat)
      [handRecord clock0 (mkHandedness "Right") fullRawHand 0]
  ∧ Forall (λ raw : list NormalizedLandmark.t, (21 <= length raw)%nat) [fullRawHand]
  ∧ length [handRecord clock0 (mkHandedness "Right") fullRawHand 0]
    = length [fullRawHand].
Proof.
  assert (Hrun : Unguarded.onResults true clock0
            (mkResults (Some [fullRawHand]) (Some [mkHandedness "Right"]))
          = Normal (Some [handRecord clock0 (mkHandedness "Right") fullRawHand 0])).
  { unfold Unguarded.onResults, forEach.
    cbn [negb multiHandLandmarks multiHandedness forEach_from].
    rewrite (unguarded_onHand_run _ _ _ _ _ (mkHandedness "Right"));
      [reflexivity | reflexivity | unfold fullRawHand; rewrite length_replicate; lia]. }
  split; [exact Hrun |].
  exact (unguarded_emits_only_full_hands true clock0
           (mkResults (Some [fullRawHand]) (Some [mkHandedness "Right"]))
           [handRecord clock0 (mkHandedness "Right") fullRawHand 0] Hrun).
Defined.

(** ** Ranges of the stored angles *)

Lemma calculateSideBend_range (a b c : HandLandmark) :
  0 <= Guarded.calculateSideBend a b c <= 180.
Proof.
  change (Guarded.calculateSideBend a b c)
    with (calculateAngle (inZXPlane a) (inZXPlane b) (inZXPlane c)).
  apply calculateAngle_range.
Qed.

Lemma fingerMap_range calc (lm : list HandLandmark) (k : string) (v : R) :
  (∀ a b c, 0 <= calc a b c <= 180) →
  fingerMap calc lm !! k = Some v → 0 <= v <= 180.
Proof.
  intros Hcalc Hv.
  assert (Hk : k ∈ fingerNames).
  { rewrite <- (fingerMap_dom calc lm). apply elem_of_dom. now exists v. }
  assert (Hjoint : ∀ a b c,
            0 <= match jointAngle calc lm a b c with Some r => r | None => 0 end <= 180).
  { intros a b c. unfold jointAngle.
    destruct (lm !! a), (lm !! b), (lm !! c); try lra. apply Hcalc. }
  unfold fingerNames in Hk. rewrite !elem_of_union, !elem_of_singleton in Hk.
  destruct Hk as [[[[-> | ->] | ->] | ->] | ->].
  - rewrite (fingerMap_lookup calc lm "Thumb" 1 2 4) in Hv by (simpl; tauto).
    injection Hv as <-. apply Hjoint.
  - rewrite (fingerMap_lookup calc lm "Index" 5 6 8) in Hv by (simpl; tauto).
    injection Hv as <-. apply Hjoint.
  - rewrite (fingerMap_lookup calc lm "Middle" 9 10 12) in Hv by (simpl; tauto).
    injection Hv as <-. apply Hjoint.
  - rewrite (fingerMap_lookup calc lm "Ring" 13 14 16) in Hv by (simpl; tauto).
    injection Hv as <-. apply Hjoint.
  - rewrite (fingerMap_lookup calc lm "Pinky" 17 18 20) in Hv by (simpl; tauto).
    injection Hv as <-. apply Hjoint.
Qed.

Lemma pairMap_range (lm : list HandLandmark) (k : string) (v : R) :
  pairMap lm !! k = Some v → 0 <= v <= 180.
Proof.
  intros Hv.
  assert (Hk : k ∈ pairKeys).
  { apply (pairMap_dom lm), elem_of_dom. now exists v. }
  unfold pairKeys in Hk. rewrite !elem_of_union, !elem_of_singleton in Hk.
  destruct Hk as [[[-> | ->] | ->] | ->].
  - rewrite (pairMap_lookup lm "4_8" 4 8) in Hv by (simpl; tauto).
    now apply pairAngle_range in Hv.
  - rewrite (pairMap_lookup lm "8_12" 8 12) in Hv by (simpl; tauto).
    now apply pairAngle_range in Hv.
  - rewrite (pairMap_lookup lm "12_16" 12 16) in Hv by (simpl; tauto).
    now apply pairAngle_range in Hv.
  - rewrite (pairMap_lookup lm "16_20" 16 20) in Hv by (simpl; tauto).
    now apply pairAngle_range in Hv.
Qed.

(** X8.  Every value stored by [processAngles] and by [processSideAngles]
    lies in [0, 180], for every landmark list. *)
Theorem finger_angles_in_range (lm : list HandLandmark) :
  ∃ angles side,
    processAngles lm = Normal angles
    ∧ Guarded.processSideAngles lm = Normal side
    ∧ (∀ k v, angles !! k = Some v → 0 <= v <= 180)
    ∧ (∀ k v, side !! k = Some v → 0 <= v <= 180).
Proof.
  exists (fingerMap calculateAngle lm), (fingerMap Guarded.calculateSideBend lm).
  split; [apply processAngles_run |].
  split; [apply processSideAngles_run |].
  split; intros k v Hv.
  - apply (fingerMap_range calculateAngle lm k v); [apply calculateAngle_range | exact Hv].
  - apply (fingerMap_range Guarded.calculateSideBend lm k v);
      [apply calculateSideBend_range | exact Hv].
Qed.

(** X9.  The unguarded [processFingerPairAngles] returns exactly for the
    lists of more than 20 landmarks; its object then has all four pair keys
    and is the object the guarded variant returns.  For a shorter list it
    raises a TypeError. *)
Theorem unguarded_pairs_all_or_raise (lm : list HandLandmark) :
  match Unguarded.processFingerPairAngles lm with
  | Normal pairs =>
      (20 < length lm)%nat
      ∧ dom pairs = pairKeys
      ∧ Guarded.processFingerPairAngles lm = Normal pairs
  | Throw e => (length lm <= 20)%nat ∧ e = TypeError
  end.
Proof.
  destruct (decide (20 < length lm)%nat) as [Hlen | Hlen].
  - rewrite unguarded_pairs_run by exact Hlen.
    split; [exact Hlen |]. split; [| apply guarded_pairs_run].
    apply (anti_symm (⊆)); [apply pairMap_dom |].
    intros k Hk. apply elem_of_dom.
    assert (Hsome : ∀ i j, (i <= 20)%nat → (j <= 20)%nat → is_Some (pairAngle lm i j)).
    { intros i j Hi Hj. unfold pairAngle.
      destruct (lookup_lt_is_Some_2 lm i) as [ti ->]; [lia |].
      destruct (lookup_lt_is_Some_2 lm j) as [tj ->]; [lia |]. eauto. }
    unfold pairKeys in Hk. rewrite !elem_of_union, !elem_of_singleton in Hk.
    destruct Hk as [[[-> | ->] | ->] | ->].
    + rewrite (pairMap_lookup lm "4_8" 4 8) by (simpl; tauto). apply Hsome; lia.
    + rewrite (pairMap_lookup lm "8_12" 8 12) by (simpl; tauto). apply Hsome; lia.
    + rewrite (pairMap_lookup lm "12_16" 12 16) by (simpl; tauto). apply Hsome; lia.
    + rewrite (pairMap_lookup lm "16_20" 16 20) by (simpl; tauto). apply Hsome; lia.
  - rewrite unguarded_pairs_raise by (apply lookup_ge_None; lia).
    split; [lia | reflexivity].
Qed.

Lemma hypot_zero_iff (dx dy : R) : hypot dx dy = 0 ↔ dx = 0 ∧ dy = 0.
Proof.
  unfold hypot. split.
  - intros H. apply sqrt_eq_0 in H; [| nra]. split; nra.
  - intros [-> ->]. replace (0 * 0 + 0 * 0) with 0 by ring. apply sqrt_0.
Qed.

(** X10.  In the guarded variant the gap of a record is 0 exactly when the
    thumb tip or the index tip is missing, or the two tips have the same x
    and the same y. *)
Theorem guarded_gap_zero_iff
    (Date_now : nat → Z) (hds : list Handedness) (hands : list HandData)
    (raw : list NormalizedLandmark.t) (i : nat) (h : Handedness) :
  hds !! i = Some h →
  ∃ hand,
    Guarded.onHand Date_now hds hands raw i = Normal (hands ++ [hand])%list
    ∧ (gap hand = 0 ↔
       match toHandLandmarks raw !! 4%nat, toHandLandmarks raw !! 8%nat with
       | Some thumbTip, Some indexTip =>
           x thumbTip = x indexTip ∧ y thumbTip = y indexTip
       | _, _ => True
       end).
Proof.
  intros Hh. exists (handRecord Date_now h raw i).
  split; [now apply guarded_onHand_run |].
  cbn [handRecord gap]. unfold tipGap.
  destruct (toHandLandmarks raw !! 4%nat) as [t |],
           (toHandLandmarks raw !! 8%nat) as [j |]; try tauto.
  fold (hypot (x j - x t) (y j - y t)). rewrite hypot_zero_iff. split; intros []; lra.
Qed.

Lemma guarded_gap_zero_iff_witness :
  [mkHandedness "Left"] !! 0%nat = Some (mkHandedness "Left")
  ∧ ∃ hand,
      Guarded.onHand clock0 [mkHandedness "Left"] [] fullRawHand 0
      = Normal ([] ++ [hand])%list
      ∧ (gap hand = 0 ↔
         match toHandLandmarks fullRawHand !! 4%nat, toHandLandmarks fullRawHand !! 8%nat with
         | Some thumbTip, Some indexTip =>
             x thumbTip = x indexTip ∧ y thumbTip = y indexTip
         | _, _ => True
         end).
Proof.
  split; [reflexivity |].
  apply (guarded_gap_zero_iff clock0 [mkHandedness "Left"] [] fullRawHand 0 (mkHandedness "Left")).
  reflexivity.
Defined.

(** ** The 3D scene *)

Lemma forEach_from_append {A B : Type} (f : A → list B)
    (body : list B → A → nat → completion (list B)) :
  (∀ st a i, body st a i = Normal (st ++ f a)%list) →
  ∀ l i st, forEach_from body i l st = Normal (st ++ concat (map f l))%list.
Proof.
  intros Hbody. induction l as [| a l IH]; intros i st.
  - cbn. now rewrite app_nil_r.
  - cbn [forEach_from]. rewrite Hbody. cbn [mbind completion_bind].
    rewrite IH. cbn [map concat]. now rewrite app_assoc.
Qed.

Lemma handGroup_run (hand : HandData) (handIndex : nat) :
  Visualization.handGroup hand handIndex = Normal (sceneGroup hand handIndex).
Proof.
  unfold Visualization.handGroup, forEach. fold (sceneColor handIndex).
  rewrite (forEach_from_append
             (λ landmark, [Mesh (sceneColor handIndex) (Visualization.toScene landmark)]))
    by reflexivity.
  cbn [mbind completion_bind app].
  rewrite (forEach_from_append (connectionLine (sceneColor handIndex) (landmarks hand))).
  - unfold sceneGroup. f_equal. f_equal.
    induction (landmarks hand) as [| l ls IH]; [reflexivity |].
    cbn [map concat app]. now rewrite IH.
  - intros st [start finish] i. unfold connectionLine. cbn [fst snd].
    destruct (landmarks hand !! start), (landmarks hand !! finish);
      cbn; rewrite ?app_nil_r; reflexivity.
Qed.

Lemma connectionLine_length color lm connection :
  (length (connectionLine color lm connection) <= 1)%nat.
Proof.
  unfold connectionLine.
  destruct (lm !! connection.1), (lm !! connection.2); cbn; lia.
Qed.

Lemma concat_length_le {A B : Type} (f : A → list B) (l : list A) :
  (∀ a, (length (f a) <= 1)%nat) →
  (length (concat (map f l)) <= length l)%nat.
Proof.
  intros Hf. induction l as [| a l IH]; [cbn; lia |].
  cbn [map concat]. rewrite length_app. cbn [length]. specialize (Hf a). lia.
Qed.

Lemma connectionLine_present color (lm : list HandLandmark) connection :
  In connection Visualization.HAND_CONNECTIONS →
  (21 <= length lm)%nat →
  ∃ s e, lm !! connection.1 = Some s ∧ lm !! connection.2 = Some e
    ∧ connectionLine color lm connection
      = [Line color [Visualization.toScene s; Visualization.toScene e]].
Proof.
  intros Hin Hlen.
  assert (Hb : (connection.1 <= 20)%nat ∧ (connection.2 <= 20)%nat).
  { cbn in Hin. repeat (destruct Hin as [<- | Hin]; [cbn; lia |]). destruct Hin. }
  destruct (lookup_lt_is_Some_2 lm connection.1) as [s Hs]; [lia |].
  destruct (lookup_lt_is_Some_2 lm connection.2) as [e He]; [lia |].
  exists s, e. unfold connectionLine. now rewrite Hs, He.
Qed.

(** X11.  The group built for a hand never raises.  It holds one mesh per
    landmark, in order, followed by at most 21 lines: all 21 when the hand
    has at least 21 landmarks, none when it has at most one.  Every line
    joins the scene positions of the two landmarks of one of the hand
    connections, both present in the hand. *)
Theorem handGroup_meshes_and_lines (hand : HandData) (handIndex : nat) :
  ∃ lines,
    Visualization.handGroup hand handIndex
    = Normal (map (λ landmark,
                     Mesh (sceneColor handIndex) (Visualization.toScene landmark))
                  (landmarks hand) ++ lines)%list
    ∧ (length lines <= 21)%nat
    ∧ (length lines = 21%nat ∨ (length (landmarks hand) < 21)%nat)
    ∧ (lines = [] ∨ (1 < length (landmarks hand))%nat)
    ∧ ∀ obj, In obj lines →
        ∃ start finish s e,
          In (start, finish) Visualization.HAND_CONNECTIONS
          ∧ landmarks hand !! start = Some s
          ∧ landmarks hand !! finish = Some e
          ∧ obj = Line (sceneColor handIndex)
                    [Visualization.toScene s; Visualization.toScene e].
Proof.
  set (lines := concat (map (connectionLine (sceneColor handIndex) (landmarks hand))
                            Visualization.HAND_CONNECTIONS)).
  exists lines. split; [apply handGroup_run |].
  split.
  { change 21%nat with (length Visualization.HAND_CONNECTIONS).
    apply concat_length_le, connectionLine_length. }
  split.
  { destruct (decide (length (landmarks hand) < 21)%nat) as [Hlt | Hge]; [now right |].
    left. subst lines.
    assert (Hall : ∀ conns, (∀ c, In c conns → In c Visualization.HAND_CONNECTIONS) →
              length (concat (map (connectionLine (sceneColor handIndex) (landmarks hand))
                                  conns)) = length conns).
    { induction conns as [| c conns IH]; intros Hsub; [reflexivity |].
      cbn [map concat]. rewrite length_app, IH by (intros; apply Hsub; now right).
      destruct (connectionLine_present (sceneColor handIndex) (landmarks hand) c)
        as (s & e & _ & _ & ->); [apply Hsub; now left | lia | reflexivity]. }
    now rewrite Hall. }
  split.
  { destruct (decide (1 < length (landmarks hand))%nat) as [Hgt | Hle]; [now right |].
    left. subst lines.
    assert (Hnone : ∀ c, In c Visualization.HAND_CONNECTIONS →
              connectionLine (sceneColor handIndex) (landmarks hand) c = []).
    { intros c Hc. unfold connectionLine.
      assert (Hpos : (1 <= c.1)%nat ∨ (1 <= c.2)%nat).
      { cbn in Hc. repeat (destruct Hc as [<- | Hc]; [cbn; lia |]). destruct Hc. }
      destruct Hpos as [Hp | Hp].
      - rewrite (lookup_ge_None_2 (landmarks hand) c.1) by lia. reflexivity.
      - rewrite (lookup_ge_None_2 (landmarks hand) c.2) by lia.
        destruct (landmarks hand !! c.1); reflexivity. }
    induction Visualization.HAND_CONNECTIONS as [| c conns IH]; [reflexivity |].
    cbn [map concat]. rewrite Hnone by now left. cbn [app].
    apply IH. intros c' Hc'. apply Hnone. now right. }
  intros obj Hobj. subst lines.
  apply in_concat in Hobj as (group & Hgroup & Hobj).
  apply in_map_iff in Hgroup as ([start finish] & <- & Hconn).
  unfold connectionLine in Hobj. cbn [fst snd] in Hobj.
  destruct (landmarks hand !! start) as [s |] eqn:Hs; [| destruct Hobj].
  destruct (landmarks hand !! finish) as [e |] eqn:He; [| destruct Hobj].
  destruct Hobj as [<- | []]. now exists start, finish, s, e.
Qed.

Lemma forEach_from_push {A B : Type} (f : nat → A → B)
    (body : list B → A → nat → completion (list B)) :
  (∀ st a i, body st a i = Normal (st ++ [f i a])%list) →
  ∀ l i st,
  forEach_from body i l st = Normal (st ++ imap (λ j a, f (i + j)%nat a) l)%list.
Proof.
  intros Hbody. induction l as [| a l IH]; intros i st.
  - cbn. now rewrite app_nil_r.
  - cbn [forEach_from]. rewrite Hbody. cbn [mbind completion_bind].
    rewrite IH. cbn [imap]. rewrite Nat.add_0_r, <- app_assoc. cbn [app].
    do 3 f_equal. apply imap_ext. intros j a' _. cbn. f_equal. lia.
Qed.

(** X12.  While the scene is not set up the effect leaves the hand groups as
    they are.  Once it is, the effect replaces them, whatever they were, by
    one group per hand of [handData], in order, group i being the one built
    for hand i; there is none when [handData] is absent or empty. *)
Theorem handsEffect_groups
    (handMeshes : list (list Object3D)) (handData : option (list HandData)) :
  Visualization.handsEffect false handMeshes handData = Normal handMeshes
  ∧ ∃ groups,
      Visualization.handsEffect true handMeshes handData = Normal groups
      ∧ length groups
        = length (match handData with Some hands => hands | None => [] end)
      ∧ ∀ i hand, handData ≫= (.!! i) = Some hand →
          ∃ group, groups !! i = Some group
            ∧ Visualization.handGroup hand i = Normal group.
Proof.
  split; [reflexivity |].
  exists (imap (λ i hand, sceneGroup hand i)
           (match handData with Some hands => hands | None => [] end)).
  split.
  - unfold Visualization.handsEffect. cbn [negb].
    destruct handData as [hands |]; [| reflexivity].
    destruct (decide (length hands = 0%nat)) as [Hlen | Hlen].
    + destruct hands; [reflexivity | discriminate].
    + unfold forEach.
      rewrite (forEach_from_push (λ i hand, sceneGroup hand i)).
      * reflexivity.
      * intros st hand i. now rewrite handGroup_run.
  - split; [apply length_imap |].
    intros i hand Hhand. destruct handData as [hands |]; [| discriminate].
    cbn in Hhand. exists (sceneGroup hand i).
    split; [| apply handGroup_run].
    rewrite list_lookup_imap, Hhand. reflexivity.
Qed.

(** X13.  The conversion to scene coordinates sends the unit square of the
    image into the square from -1 to 1, keeps the horizontal order, and turns
    the vertical axis over: a landmark that is not lower in the image is not
    lower in the scene. *)
Theorem toScene_frame (p q : HandLandmark) :
  (0 <= x p <= 1 → -1 <= Vector3.x (Visualization.toScene p) <= 1)
  ∧ (0 <= y p <= 1 → -1 <= Vector3.y (Visualization.toScene p) <= 1)
  ∧ (x p <= x q →
     Vector3.x (Visualization.toScene p) <= Vector3.x (Visualization.toScene q))
  ∧ (y p <= y q →
     Vector3.y (Visualization.toScene q) <= Vector3.y (Visualization.toScene p)).
Proof.
  unfold Visualization.toScene. cbn [Vector3.x Vector3.y].
  repeat split; intros; lra.
Qed.

(** ** The chart *)

Lemma enumerates_lookup Object_entries (obj : gmap string R) (k : string) (v : R) :
  enumerates Object_entries → In (k, v) (Object_entries obj) → obj !! k = Some v.
Proof.
  intros Henum Hin. apply elem_of_map_to_list.
  rewrite <- (Henum obj). now apply list_elem_of_In.
Qed.

Lemma enumerates_length Object_entries (obj : gmap string R) :
  enumerates Object_entries → length (Object_entries obj) = size obj.
Proof. intros Henum. now rewrite (Henum obj), length_map_to_list. Qed.

Lemma lookup_fst_snd {A B : Type} (l : list (A * B)) (i : nat) (a : A) (b : B) :
  map fst l !! i = Some a → map snd l !! i = Some b → In (a, b) l.
Proof.
  rewrite !lookup_map. destruct (l !! i) as [[a' b'] |] eqn:Hi; [| discriminate].
  cbn. intros [= <-] [= <-]. apply list_elem_of_In. eapply list_elem_of_lookup_2, Hi.
Qed.

(** X14.  For a hand, the chart has one dataset; its labels and its data
    have the same length, the number of finger angles plus the number of pair
    angles; and the value at a position is the angle stored in the hand under
    the label at that position. *)
Theorem chartData_aligned
    (Object_entries : gmap string R → list (string * R))
    (handData : HandData) (handIndex : nat) :
  enumerates Object_entries →
  ∃ dataset,
    datasets (Chart.chartData Object_entries (Some handData) handIndex) = [dataset]
    ∧ length (labels (Chart.chartData Object_entries (Some handData) handIndex))
      = length (Dataset.data dataset)
    ∧ length (Dataset.data dataset)
      = (size (fingerAngles handData)
         + match fingerPairAngles handData with
           | Some pairs => size pairs
           | None => 0
           end)%nat
    ∧ ∀ i name value,
        labels (Chart.chartData Object_entries (Some handData) handIndex) !! i
        = Some name →
        Dataset.data dataset !! i = Some value →
        fingerAngles handData !! name = Some value
        ∨ ∃ pairs, fingerPairAngles handData = Some pairs
            ∧ pairs !! name = Some value.
Proof.
  intros Henum. cbn [Chart.chartData datasets labels]. eexists. split; [reflexivity |].
  cbn [Dataset.data].
  set (fingers := Object_entries (fingerAngles handData)).
  assert (Hfl : length fingers = size (fingerAngles handData))
    by now apply enumerates_length.
  destruct (fingerPairAngles handData) as [pairs |] eqn:Hpairs.
  - set (ps := Object_entries pairs).
    assert (Hpl : length ps = size pairs) by now apply enumerates_length.
    rewrite <- !map_app.
    split; [now rewrite !length_map |].
    split; [now rewrite length_map, length_app, Hfl, Hpl |].
    intros i name value Hn Hv.
    pose proof (lookup_fst_snd _ _ _ _ Hn Hv) as Hin.
    apply in_app_or in Hin as [Hin | Hin].
    + left. now apply (enumerates_lookup Object_entries).
    + right. exists pairs. split; [reflexivity |].
      now apply (enumerates_lookup Object_entries).
  - rewrite !app_nil_r.
    split; [now rewrite !length_map |].
    split; [rewrite length_map, Hfl; lia |].
    intros i name value Hn Hv. left.
    apply (enumerates_lookup Object_entries); [exact Henum |].
    now apply (lookup_fst_snd _ i).
Qed.

Lemma map_to_list_enumerates : enumerates map_to_list.
Proof. intros obj. reflexivity. Defined.

Lemma chartData_aligned_witness :
  enumerates map_to_list
  ∧ ∃ dataset,
      datasets (Chart.chartData map_to_list
                  (Some (handRecord clock0 (mkHandedness "Right") fullRawHand 0)) 0)
      = [dataset]
      ∧ length (labels (Chart.chartData map_to_list
                  (Some (handRecord clock0 (mkHandedness "Right") fullRawHand 0)) 0))
        = length (Dataset.data dataset)
      ∧ length (Dataset.data dataset)
        = (size (fingerAngles (handRecord clock0 (mkHandedness "Right") fullRawHand 0))
           + match fingerPairAngles
                     (handRecord clock0 (mkHandedness "Right") fullRawHand 0) with
             | Some pairs => size pairs
             | None => 0
             end)%nat
      ∧ ∀ i name value,
          labels (Chart.chartData map_to_list
                    (Some (handRecord clock0 (mkHandedness "Right") fullRawHand 0)) 0)
            !! i = Some name →
          Dataset.data dataset !! i = Some value →
          fingerAngles (handRecord clock0 (mkHandedness "Right") fullRawHand 0)
            !! name = Some value
          ∨ ∃ pairs,
              fingerPairAngles (handRecord clock0 (mkHandedness "Right") fullRawHand 0)
              = Some pairs
              ∧ pairs !! name = Some value.
Proof.
  split; [exact map_to_list_enumerates |].
  apply (chartData_aligned map_to_list
           (handRecord clock0 (mkHandedness "Right") fullRawHand 0) 0).
  exact map_to_list_enumerates.
Defined.

Lemma normalized_unit (angle : R) :
  0 <= angle <= 180 → 0 <= angle / 180 <= 1 ∧ 0 <= (1 - angle / 180) * 120 <= 120.
Proof. intros [H0 H180]. lra. Qed.

(** X15.  For a record of the guarded variant the angle list has between 5
    and 9 items, and every item has its angle in [0, 180], its normalized
    value in [0, 1] and the hue of its bar in [0, 120]. *)
Theorem correlationMatrix_of_guarded_hand
    (Object_entries : gmap string R → list (string * R))
    (Date_now : nat → Z) (hds : list Handedness) (hands : list HandData)
    (raw : list NormalizedLandmark.t) (i : nat) (h : Handedness) :
  enumerates Object_entries →
  hds !! i = Some h →
  ∃ hand items,
    Guarded.onHand Date_now hds hands raw i = Normal (hands ++ [hand])%list
    ∧ Chart.correlationMatrix Object_entries (Some hand) = Some items
    ∧ (5 <= length items <= 9)%nat
    ∧ ∀ item, In item items →
        0 <= MatrixItem.angle item <= 180
        ∧ 0 <= MatrixItem.normalized item <= 1
        ∧ 0 <= Chart.hue item <= 120.
Proof.
  intros Henum Hh. exists (handRecord Date_now h raw i). eexists.
  split; [now apply guarded_onHand_run |].
  split; [reflexivity |].
  cbn [handRecord fingerAngles fingerPairAngles].
  set (lm := toHandLandmarks raw). split.
  - rewrite length_app, !length_map, !enumerates_length by exact Henum.
    rewrite fingerMap_size. pose proof (pairMap_size lm). lia.
  - intros item Hitem. unfold Chart.hue.
    apply in_app_or in Hitem as [Hitem | Hitem];
      apply in_map_iff in Hitem as ([key angle] & <- & Hin);
      cbn [MatrixItem.angle MatrixItem.normalized];
      apply (enumerates_lookup Object_entries) in Hin; try exact Henum.
    + apply (fingerMap_range calculateAngle lm key angle) in Hin;
        [| apply calculateAngle_range].
      pose proof (normalized_unit angle Hin). tauto.
    + apply pairMap_range in Hin.
      pose proof (normalized_unit angle Hin). tauto.
Qed.

Lemma correlationMatrix_of_guarded_hand_witness :
  enumerates map_to_list
  ∧ [mkHandedness "Left"] !! 0%nat = Some (mkHandedness "Left")
  ∧ ∃ hand items,
      Guarded.onHand clock0 [mkHandedness "Left"] [] shortRawHand 0
      = Normal ([] ++ [hand])%list
      ∧ Chart.correlationMatrix map_to_list (Some hand) = Some items
      ∧ (5 <= length items <= 9)%nat
      ∧ ∀ item, In item items →
          0 <= MatrixItem.angle item <= 180
          ∧ 0 <= MatrixItem.normalized item <= 1
          ∧ 0 <= Chart.hue item <= 120.
Proof.
  split; [exact map_to_list_enumerates |]. split; [reflexivity |].
  apply (correlationMatrix_of_guarded_hand map_to_list clock0 [mkHandedness "Left"] []
           shortRawHand 0 (mkHandedness "Left")).
  - exact map_to_list_enumerates.
  - reflexivity.
Defined.

(** ** Replacing the underscore of a pair key *)

Lemma append_cons (ch : ascii) (s t : string) :
  String ch s +:+ t = String ch (s +:+ t).
Proof. reflexivity. Qed.

Lemma append_empty (s : string) : "" +:+ s = s.
Proof. reflexivity. Qed.

(** X16.  [replace] changes the first occurrence of the pattern only: a
    string split at its first underscore keeps what precedes and what follows
    it, and a string without the pattern is returned as it is. *)
Theorem String_replace_first (pattern : ascii) (replacement before after : string) :
  ¬ In pattern (String.list_ascii_of_string before) →
  String_replace pattern replacement (before +:+ String pattern after)
  = before +:+ replacement +:+ after
  ∧ String_replace pattern replacement before = before.
Proof.
  induction before as [| ch before IH]; intros Hnot.
  - rewrite !append_empty. cbn [String_replace]. split; [| reflexivity].
    destruct (decide (pattern = pattern)); [reflexivity | congruence].
  - rewrite !append_cons. cbn [String_replace]. cbn in Hnot.
    destruct (decide (ch = pattern)) as [-> | Hne]; [exfalso; apply Hnot; now left |].
    destruct IH as [IH1 IH2]; [intros Hin; apply Hnot; now right |].
    now rewrite IH1, IH2.
Qed.

Lemma String_replace_first_witness :
  ¬ In "_"%char (String.list_ascii_of_string "12")
  ∧ String_replace "_"%char "–" ("12" +:+ String "_"%char "16") = "12" +:+ "–" +:+ "16"
  ∧ String_replace "_"%char "–" "12" = "12".
Proof.
  assert (Hnot : ¬ In "_"%char (String.list_ascii_of_string "12")).
  { simpl. intros [H | [H | []]]; discriminate. }
  split; [exact Hnot |].
  exact (String_replace_first "_"%char "–" "12" "16" Hnot).
Defined.

(** ** The settings panel *)

(** X17.  Every size the panel passes to [onWindowSizeChange], by a preset
    button or by the custom fields, has its width between 600 and 2560 and
    its height between 400 and 1440. *)
Theorem panel_sizes_within_bounds
    (parseInt : string → option Z) (customWidth customHeight : string)
    (size : WindowSize.t) :
  Settings.handleCustomSizeApply parseInt customWidth customHeight
  = onWindowSizeChange size
  ∨ (∃ preset, In preset Settings.presetSizes
       ∧ Settings.presetClick preset = onWindowSizeChange size) →
  (600 <= WindowSize.width size <= 2560)%Z
  ∧ (400 <= WindowSize.height size <= 1440)%Z.
Proof.
  intros [Hcustom | (preset & Hin & Hclick)].
  - unfold Settings.handleCustomSizeApply in Hcustom.
    destruct (parseInt customWidth) as [w |]; [| discriminate].
    destruct (parseInt customHeight) as [h |]; [| discriminate].
    destruct ((600 <=? w)%Z && (400 <=? h)%Z && (w <=? 2560)%Z && (h <=? 1440)%Z)
      eqn:Htest; [| discriminate].
    injection Hcustom as <-. cbn [WindowSize.width WindowSize.height]. lia.
  - unfold Settings.presetClick in Hclick. injection Hclick as <-.
    cbn [WindowSize.width WindowSize.height].
    cbn in Hin. repeat (destruct Hin as [<- | Hin]; [cbn; lia |]). destruct Hin.
Qed.

Lemma panel_sizes_within_bounds_witness :
  (Settings.handleCustomSizeApply (λ _, Some 700%Z) "700" "700"
   = onWindowSizeChange (WindowSize.mk 700 700)
   ∨ (∃ preset, In preset Settings.presetSizes
        ∧ Settings.presetClick preset = onWindowSizeChange (WindowSize.mk 700 700)))
  ∧ (600 <= WindowSize.width (WindowSize.mk 700 700) <= 2560)%Z
  ∧ (400 <= WindowSize.height (WindowSize.mk 700 700) <= 1440)%Z.
Proof.
  assert (H : Settings.handleCustomSizeApply (λ _, Some 700%Z) "700" "700"
              = onWindowSizeChange (WindowSize.mk 700 700)
              ∨ (∃ preset, In preset Settings.presetSizes
                   ∧ Settings.presetClick preset
                     = onWindowSizeChange (WindowSize.mk 700 700)))
    by (left; reflexivity).
  split; [exact H |].
  exact (panel_sizes_within_bounds (λ _, Some 700%Z) "700" "700" (WindowSize.mk 700 700) H).
Defined.

(** X18.  A preset's width and height typed into the custom fields are
    accepted, and applying them does what the preset's button does. *)
Theorem presets_pass_custom_validation
    (parseInt : string → option Z) (customWidth customHeight : string)
    (preset : Preset.t) :
  In preset Settings.presetSizes →
  parseInt customWidth = Some (Preset.width preset) →
  parseInt customHeight = Some (Preset.height preset) →
  Settings.handleCustomSizeApply parseInt customWidth customHeight
  = Settings.presetClick preset.
Proof.
  intros Hin Hw Hh. unfold Settings.handleCustomSizeApply. rewrite Hw, Hh.
  cbn in Hin. repeat (destruct Hin as [<- | Hin]; [reflexivity |]). destruct Hin.
Qed.

Lemma presets_pass_custom_validation_witness :
  In (Preset.mk "XL" 1440 900) Settings.presetSizes
  ∧ (λ s : string, if decide (s = "1440") then Some 1440%Z else Some 900%Z) "1440"
    = Some (Preset.width (Preset.mk "XL" 1440 900))
  ∧ (λ s : string, if decide (s = "1440") then Some 1440%Z else Some 900%Z) "900"
    = Some (Preset.height (Preset.mk "XL" 1440 900))
  ∧ Settings.handleCustomSizeApply
      (λ s : string, if decide (s = "1440") then Some 1440%Z else Some 900%Z)
      "1440" "900"
    = Settings.presetClick (Preset.mk "XL" 1440 900).
Proof.
  assert (Hin : In (Preset.mk "XL" 1440 900) Settings.presetSizes)
    by (simpl; tauto).
  split; [exact Hin |]. split; [reflexivity |]. split; [reflexivity |].
  apply (presets_pass_custom_validation
           (λ s : string, if decide (s = "1440") then Some 1440%Z else Some 900%Z)
           "1440" "900" (Preset.mk "XL" 1440 900) Hin); reflexivity.
Defined.

(** ** The rows of the overlay text *)

Lemma rowsBelow_S (y : Z) (n : nat) :
  rowsBelow y (S n) = ((y + 18)%Z :: rowsBelow (y + 18) n).
Proof.
  unfold rowsBelow. cbn [seq map]. rewrite <- seq_shift, map_map.
  f_equal; try lia. apply map_ext. intros k. lia.
Qed.

Lemma angle_rows (entries : list (string * R)) :
  ∀ (y : Z) (calls : list FillText),
  map text_y
    (snd (fold_left
            (λ '(y, calls) '(finger, angle),
               let y := (y + 18)%Z in
               (y, calls ++ [mkFillText (AngleText finger angle) 10 y])%list)
            entries (y, calls)))
  = (map text_y calls ++ rowsBelow y (length entries))%list.
Proof.
  induction entries as [| [finger angle] entries IH]; intros y calls.
  - cbn. now rewrite app_nil_r.
  - cbn [fold_left length]. rewrite IH, rowsBelow_S, map_app. cbn [map text_y].
    now rewrite <- app_assoc.
Qed.

Lemma angle_columns (entries : list (string * R)) :
  ∀ (y : Z) (calls : list FillText) (call : FillText),
  (∀ c, In c calls → text_x c = 10%Z) →
  In call
    (snd (fold_left
            (λ '(y, calls) '(finger, angle),
               let y := (y + 18)%Z in
               (y, calls ++ [mkFillText (AngleText finger angle) 10 y])%list)
            entries (y, calls))) →
  text_x call = 10%Z.
Proof.
  induction entries as [| [finger angle] entries IH]; intros y calls call Hcalls Hin.
  - now apply Hcalls.
  - cbn [fold_left] in Hin. apply (IH _ _ call) in Hin; [exact Hin |].
    intros c Hc. apply in_app_or in Hc as [Hc | [<- | []]]; [now apply Hcalls | reflexivity].
Qed.

Lemma overlay_columns Object_entries show handedness gap (fa sa : gmap string R) (i : nat)
    (call : FillText) :
  In call (Overlay.guarded Object_entries show handedness gap fa sa i) →
  text_x call = 10%Z.
Proof.
  intros Hin. unfold Overlay.guarded in Hin.
  apply angle_columns in Hin; [exact Hin |].
  intros c [<- | [<- | []]]; reflexivity.
Qed.

Lemma guarded_rows Object_entries show handedness gap (fa sa : gmap string R) (i : nat) :
  enumerates Object_entries → size fa = 5%nat → size sa = 5%nat →
  map text_y (Overlay.guarded Object_entries show handedness gap fa sa i)
  = map (λ k : Z, (20 + Z.of_nat i * 150 + 18 * k)%Z) [0; 1; 2; 3; 4; 5; 6]%Z.
Proof.
  intros Henum Hfa Hsa. unfold Overlay.guarded. rewrite angle_rows.
  rewrite enumerates_length by exact Henum.
  replace (size (if show then sa else fa)) with 5%nat by (destruct show; congruence).
  unfold rowsBelow. cbn [map app seq text_y].
  repeat (apply (f_equal2 cons); [lia |]). reflexivity.
Qed.

Lemma unguarded_rows Object_entries handedness gap (fa : gmap string R) (i : nat) :
  enumerates Object_entries → size fa = 5%nat →
  map text_y (Overlay.unguarded Object_entries handedness gap fa i)
  = [20; 38; 56; 74; 92; 110]%Z.
Proof.
  intros Henum Hfa. unfold Overlay.unguarded. rewrite angle_rows.
  rewrite enumerates_length, Hfa by exact Henum. reflexivity.
Qed.

(** X19.  In the guarded variant the text of hand i, for angle objects of
    five entries, is drawn at x = 10 on rows between 20 + 150 i and
    128 + 150 i, and no row of hand i is a row of another hand j. *)
Theorem guarded_overlay_rows_disjoint
    (Object_entries : gmap string R → list (string * R))
    (show : bool) (handedness1 handedness2 : string) (gap1 gap2 : R)
    (fa1 sa1 fa2 sa2 : gmap string R) (i j : nat) :
  enumerates Object_entries →
  size fa1 = 5%nat → size sa1 = 5%nat → size fa2 = 5%nat → size sa2 = 5%nat →
  i ≠ j →
  Forall (λ call1,
            (20 + 150 * Z.of_nat i <= text_y call1 <= 128 + 150 * Z.of_nat i)%Z
            ∧ text_x call1 = 10%Z
            ∧ Forall (λ call2, text_y call1 ≠ text_y call2)
                (Overlay.guarded Object_entries show handedness2 gap2 fa2 sa2 j))
    (Overlay.guarded Object_entries show handedness1 gap1 fa1 sa1 i).
Proof.
  intros Henum Hfa1 Hsa1 Hfa2 Hsa2 Hij.
  apply Forall_forall. intros call1 Hin1. apply list_elem_of_In in Hin1.
  pose proof (in_map text_y _ _ Hin1) as Hrow1.
  rewrite guarded_rows in Hrow1 by assumption. cbn in Hrow1.
  split; [| split].
  - repeat (destruct Hrow1 as [Hrow1 | Hrow1]; [lia |]). destruct Hrow1.
  - eapply overlay_columns, Hin1.
  - apply Forall_forall. intros call2 Hin2. apply list_elem_of_In in Hin2.
    apply (in_map text_y) in Hin2.
    rewrite guarded_rows in Hin2 by assumption. cbn in Hin2.
    repeat (destruct Hrow1 as [Hrow1 | Hrow1]; [| try destruct Hrow1]);
    repeat (destruct Hin2 as [Hin2 | Hin2]; [| try destruct Hin2]); lia.
Qed.

Lemma guarded_overlay_rows_disjoint_witness :
  enumerates map_to_list
  ∧ size (fingerMap calculateAngle []) = 5%nat
  ∧ size (fingerMap Guarded.calculateSideBend []) = 5%nat
  ∧ 0%nat ≠ 1%nat
  ∧ Forall (λ call1,
              (20 + 150 * Z.of_nat 0 <= text_y call1 <= 128 + 150 * Z.of_nat 0)%Z
              ∧ text_x call1 = 10%Z
              ∧ Forall (λ call2, text_y call1 ≠ text_y call2)
                  (Overlay.guarded map_to_list false "Left" 0
                     (fingerMap calculateAngle [])
                     (fingerMap Guarded.calculateSideBend []) 1))
      (Overlay.guarded map_to_list false "Right" 0
         (fingerMap calculateAngle []) (fingerMap Guarded.calculateSideBend []) 0).
Proof.
  split; [exact map_to_list_enumerates |].
  split; [apply fingerMap_size |]. split; [apply fingerMap_size |].
  split; [lia |].
  apply (guarded_overlay_rows_disjoint map_to_list false "Right" "Left" 0 0
           (fingerMap calculateAngle []) (fingerMap Guarded.calculateSideBend [])
           (fingerMap calculateAngle []) (fingerMap Guarded.calculateSideBend []) 0 1);
    try apply fingerMap_size; [exact map_to_list_enumerates | lia].
Defined.

(** X20.  In the unguarded variant the text of every hand, for an angle
    object of five entries, is drawn on the rows 20, 38, 56, 74, 92 and 110:
    the texts of two hands of a frame share their rows. *)
Theorem unguarded_overlay_rows_shared
    (Object_entries : gmap string R → list (string * R))
    (handedness1 handedness2 : string) (gap1 gap2 : R)
    (fa1 fa2 : gmap string R) (i j : nat) :
  enumerates Object_entries →
  size fa1 = 5%nat → size fa2 = 5%nat →
  map text_y (Overlay.unguarded Object_entries handedness1 gap1 fa1 i)
  = [20; 38; 56; 74; 92; 110]%Z
  ∧ map text_y (Overlay.unguarded Object_entries handedness1 gap1 fa1 i)
    = map text_y (Overlay.unguarded Object_entries handedness2 gap2 fa2 j).
Proof.
  intros Henum Hfa1 Hfa2. rewrite !unguarded_rows by assumption. now split.
Qed.

Lemma unguarded_overlay_rows_shared_witness :
  enumerates map_to_list
  ∧ size (fingerMap calculateAngle []) = 5%nat
  ∧ map text_y (Overlay.unguarded map_to_list "Right" 0 (fingerMap calculateAngle []) 0)
    = [20; 38; 56; 74; 92; 110]%Z
  ∧ map text_y (Overlay.unguarded map_to_list "Right" 0 (fingerMap calculateAngle []) 0)
    = map text_y (Overlay.unguarded map_to_list "Left" 1 (fingerMap calculateAngle []) 1).
Proof.
  split; [exact map_to_list_enumerates |]. split; [apply fingerMap_size |].
  apply (unguarded_overlay_rows_shared map_to_list "Right" "Left" 0 1
           (fingerMap calculateAngle []) (fingerMap calculateAngle []) 0 1);
    [exact map_to_list_enumerates | apply fingerMap_size | apply fingerMap_size].
Defined.
